(** * dxltieclient: the reputation-change callback

    A shallow embedding of [ReputationChangeCallback] from
    [dxltieclient/callbacks.py].  The callback decodes the payload of a DXL
    event as JSON, rewrites a handful of fields of the parsed dictionary and
    hands the result to the [on_reputation_change] method of the derived
    class.

    Python values are embedded as follows.
    - A byte string ([str] of Python 2, the type of [event.payload]) is a
      [string]: a list of 8-bit characters.
    - A [unicode] string is the [string] holding its UTF-8 encoding.  UTF-8
      is injective and self-synchronising, so equality of keys and the
      substring test agree with those on code points.
    - A [dict] produced by [json.loads] is a [gmap string json]: keys are
      unique, their order is not observable, and two dictionaries are equal
      exactly when they hold the same entries.
    - An exception is an error result; the statements after the raising one
      are not run. *)

From stdpp Require Import gmap strings list fin_maps.
From Stdlib Require Import ZArith NArith Ascii String.

Open Scope string_scope.

(** ** Exceptions and results *)

Inductive exn : Type :=
  | UnicodeDecodeError
  | ValueError
  | TypeError
  | KeyError (key : string)
  | NotImplementedError (msg : string)
  | TransformError.

Inductive result (A : Type) : Type :=
  | Ok (a : A)
  | Raise (e : exn).
Arguments Ok {A} a.
Arguments Raise {A} e.

#[global] Instance result_ret : MRet result := λ A a, Ok a.
#[global] Instance result_bind : MBind result := λ A B f m,
  match m with
  | Ok a => f a
  | Raise e => Raise e
  end.

Definition raises {A} (m : result A) : Prop := ∃ e, m = Raise e.

(** ** Parsed JSON documents *)

(** What [json.loads] returns: [None], [bool], [int]/[long], [float] (kept as
    its IEEE 754 bit pattern, the callback never computes with it),
    [unicode], [list] and [dict]. *)
#[warnings="-register-all"]
Inductive json : Type :=
  | JNull
  | JBool (b : bool)
  | JInt (n : Z)
  | JFloat (bits : Z)
  | JStr (s : string)
  | JArr (l : list json)
  | JObj (m : gmap string json).

(** [needle in hay] on two strings: the substring test. *)
Fixpoint is_prefix (p s : string) : bool :=
  match p, s with
  | EmptyString, _ => true
  | String a p', String b s' => bool_decide (a = b) && is_prefix p' s'
  | String _ _, EmptyString => false
  end.

Fixpoint is_substring (needle hay : string) : bool :=
  is_prefix needle hay ||
  match hay with
  | EmptyString => false
  | String _ hay' => is_substring needle hay'
  end.

Definition is_str (key : string) (v : json) : bool :=
  match v with
  | JStr s => bool_decide (s = key)
  | _ => false
  end.

(** [key in v] for a string constant [key]. *)
Definition py_in (key : string) (v : json) : result bool :=
  match v with
  | JObj m => Ok (bool_decide (is_Some (m !! key)))
  | JArr l => Ok (existsb (is_str key) l)
  | JStr s => Ok (is_substring key s)
  | JNull | JBool _ | JInt _ | JFloat _ => Raise TypeError
  end.

(** [v[key]] for a string constant [key]. *)
Definition py_getitem (v : json) (key : string) : result json :=
  match v with
  | JObj m =>
      match m !! key with
      | Some x => Ok x
      | None => Raise (KeyError key)
      end
  | _ => Raise TypeError
  end.

(** [v[key] = x] for a string constant [key]; the result is the new content
    of the object [v]. *)
Definition py_setitem (v : json) (key : string) (x : json) : result json :=
  match v with
  | JObj m => Ok (JObj (<[key := x]> m))
  | _ => Raise TypeError
  end.

(** ** Property names *)

(** Modelled from the spec: [dxltieclient/constants.py] is not part of the
    sources at hand.  The names of the top-level properties are those of
    sections 3 and 4.1 of the specification. *)
Module RepChangeEventProp.
Definition HASHES : string := "hashes".
Definition NEW_REPUTATIONS : string := "newReputations".
Definition OLD_REPUTATIONS : string := "oldReputations".
Definition UPDATE_TIME : string := "updateTime".
End RepChangeEventProp.

Module FileRepChangeEventProp.
Definition RELATIONSHIPS : string := "relationships".
End FileRepChangeEventProp.

Module CertRepChangeEventProp.
Definition PUBLIC_KEY_SHA1 : string := "publicKeySha1".
End CertRepChangeEventProp.

(** The top-level keys the callback looks at. *)
Definition recognized : list string :=
  [ RepChangeEventProp.HASHES;
    RepChangeEventProp.NEW_REPUTATIONS;
    RepChangeEventProp.OLD_REPUTATIONS;
    FileRepChangeEventProp.RELATIONSHIPS;
    CertRepChangeEventProp.PUBLIC_KEY_SHA1 ].

(** ** Events *)

(** [dxlclient.message.Event], as far as the callback is concerned: the
    payload bytes and the transport metadata. *)
Record Event : Type := {
  payload : string;
  destination_topic : string;
  message_id : string
}.

(** ** The callback *)

(** The state the callback runs in: whatever the derived class keeps
    ([user]), and the log of the calls made to [on_reputation_change]. *)
Record world (S : Type) : Type := World {
  user : S;
  calls : list (json * Event)
}.
Arguments World {S} user calls.
Arguments user {S} w.
Arguments calls {S} w.

Definition M (S A : Type) : Type := world S → result A * world S.

Definition lift {S A} (m : result A) : M S A := λ w, (m, w).

Definition M_bind {S A B} (m : M S A) (f : A → M S B) : M S B := λ w,
  match m w with
  | (Ok a, w') => f a w'
  | (Raise e, w') => (Raise e, w')
  end.

Notation "x ←ₘ m ; k" := (M_bind m (λ x, k))
  (at level 20, m at level 100, k at level 200, only parsing).

Section ReputationChangeCallback.

(** Python's codecs and json modules: what [bytes.decode] and [json.loads]
    return, [None] where they raise (UnicodeDecodeError, ValueError).  What
    they accept is theirs to say: [json.loads] reads more than the JSON
    grammar has. *)
Variable decode_utf8 : string → option string.
Variable json_loads : string → option json.

(** The static helpers of [TieClient] ([dxltieclient/client.py]). *)
Variable _transform_hashes : json → result json.
Variable _transform_reputations : json → result json.
Variable _base64_to_hex : json → result json.

(** The derived class: its state and its [on_reputation_change]. *)
Context {S : Type}.
Variable on_reputation_change : json → Event → S → result () * S.

(** [event.payload.decode(encoding="UTF-8")] *)
Definition decode (bytes : string) : result string :=
  match decode_utf8 bytes with
  | Some text => Ok text
  | None => Raise UnicodeDecodeError
  end.

(** [json.loads(text)] *)
Definition loads (text : string) : result json :=
  match json_loads text with
  | Some v => Ok v
  | None => Raise ValueError
  end.

(** Lines 69-71. *)
Definition transform_hashes (rep_change_dict : json) : result json :=
  present ← py_in RepChangeEventProp.HASHES rep_change_dict;
  if (present : bool) then
    old ← py_getitem rep_change_dict RepChangeEventProp.HASHES;
    new ← _transform_hashes old;
    py_setitem rep_change_dict RepChangeEventProp.HASHES new
  else mret rep_change_dict.

(** Lines 74-78 with [key = NEW_REPUTATIONS], lines 81-85 with
    [key = OLD_REPUTATIONS]. *)
Definition unwrap_reputations (key : string) (rep_change_dict : json)
  : result json :=
  present ← py_in key rep_change_dict;
  if (present : bool) then
    wrapper ← py_getitem rep_change_dict key;
    wrapped ← py_in "reputations" wrapper;
    if (wrapped : bool) then
      wrapper ← py_getitem rep_change_dict key;
      inner ← py_getitem wrapper "reputations";
      new ← _transform_reputations inner;
      py_setitem rep_change_dict key new
    else mret rep_change_dict
  else mret rep_change_dict.

(** Lines 92-94, on the certificate dictionary. *)
Definition transform_cert_hashes (cert_dict : json) : result json :=
  present ← py_in "hashes" cert_dict;
  if (present : bool) then
    old ← py_getitem cert_dict "hashes";
    new ← _transform_hashes old;
    py_setitem cert_dict "hashes" new
  else mret cert_dict.

(** Lines 95-97, on the certificate dictionary. *)
Definition transform_cert_public_key (cert_dict : json) : result json :=
  present ← py_in "publicKeySha1" cert_dict;
  if (present : bool) then
    old ← py_getitem cert_dict "publicKeySha1";
    new ← _base64_to_hex old;
    py_setitem cert_dict "publicKeySha1" new
  else mret cert_dict.

(** Lines 88-97.  [relationships_dict] and [cert_dict] name objects that
    sit inside [rep_change_dict]; [json.loads] builds a tree in which no
    object is referenced twice, so the assignments to [cert_dict] are
    updates of that tree at the path relationships/certificate. *)
Definition transform_relationships (rep_change_dict : json) : result json :=
  present ← py_in FileRepChangeEventProp.RELATIONSHIPS rep_change_dict;
  if (present : bool) then
    relationships_dict ←
      py_getitem rep_change_dict FileRepChangeEventProp.RELATIONSHIPS;
    has_cert ← py_in "certificate" relationships_dict;
    if (has_cert : bool) then
      cert_dict ← py_getitem relationships_dict "certificate";
      cert_dict ← transform_cert_hashes cert_dict;
      cert_dict ← transform_cert_public_key cert_dict;
      relationships_dict ←
        py_setitem relationships_dict "certificate" cert_dict;
      py_setitem rep_change_dict FileRepChangeEventProp.RELATIONSHIPS
        relationships_dict
    else mret rep_change_dict
  else mret rep_change_dict.

(** Lines 100-102. *)
Definition transform_public_key (rep_change_dict : json) : result json :=
  present ← py_in CertRepChangeEventProp.PUBLIC_KEY_SHA1 rep_change_dict;
  if (present : bool) then
    old ← py_getitem rep_change_dict CertRepChangeEventProp.PUBLIC_KEY_SHA1;
    new ← _base64_to_hex old;
    py_setitem rep_change_dict CertRepChangeEventProp.PUBLIC_KEY_SHA1 new
  else mret rep_change_dict.

(** Lines 69-102: the transforms, in the order of the source. *)
Definition normalize (rep_change_dict : json) : result json :=
  rep_change_dict ← transform_hashes rep_change_dict;
  rep_change_dict ←
    unwrap_reputations RepChangeEventProp.NEW_REPUTATIONS rep_change_dict;
  rep_change_dict ←
    unwrap_reputations RepChangeEventProp.OLD_REPUTATIONS rep_change_dict;
  rep_change_dict ← transform_relationships rep_change_dict;
  transform_public_key rep_change_dict.

(** [self.on_reputation_change(rep_change_dict, event)]: the call is
    logged, then the method of the derived class runs. *)
Definition invoke (rep_change_dict : json) (event : Event) : M S () := λ w,
  let '(r, s) := on_reputation_change rep_change_dict event (user w) in
  (r, World s (calls w ++ [(rep_change_dict, event)])).

(** [ReputationChangeCallback.on_event], lines 56-105. *)
Definition on_event (event : Event) : M S () :=
  text ←ₘ lift (decode (payload event));
  rep_change_dict ←ₘ lift (loads text);
  rep_change_dict ←ₘ lift (normalize rep_change_dict);
  invoke rep_change_dict event.

End ReputationChangeCallback.

(** [ReputationChangeCallback.on_reputation_change] of the base class,
    lines 107-249. *)
Definition base_on_reputation_change {S : Type}
    (rep_change_dict : json) (original_event : Event) (s : S)
  : result () * S :=
  (Raise (NotImplementedError "Must be implemented in a child class."), s).

(** ** The helpers of [TieClient] *)

Module TieClient.

Definition hex_digits : string := "0123456789abcdef".
Definition b64_alphabet : string :=
  "ABCDEFGHIJKLMNOPQRSTUVWXYZabcdefghijklmnopqrstuvwxyz0123456789+/".
Definition b64_pad : ascii := "="%char.

(** The character at position [n] of [s]; only used below the length. *)
Definition char_at (s : string) (n : N) : ascii :=
  match String.get (N.to_nat n) s with
  | Some c => c
  | None => "000"%char
  end.

(** The first position of [c] in [s]. *)
Fixpoint position (c : ascii) (s : string) : option N :=
  match s with
  | EmptyString => None
  | String a s' =>
      if decide (a = c) then Some 0%N else N.succ <$> position c s'
  end.

(** Lowercase hexadecimal: two digits per byte. *)
Fixpoint hexlify (bytes : string) : string :=
  match bytes with
  | EmptyString => EmptyString
  | String a rest =>
      let n := N_of_ascii a in
      String (char_at hex_digits (n / 16)) (String (char_at hex_digits (n mod 16))
        (hexlify rest))
  end.

(** The inverse reading, upper- or lowercase digits. *)
Definition hex_value (c : ascii) : option N :=
  match position c hex_digits with
  | Some v => Some v
  | None => (λ v, v + 10)%N <$> position c "ABCDEF"
  end.

Fixpoint unhexlify (s : string) : option string :=
  match s with
  | EmptyString => Some EmptyString
  | String h (String l rest) =>
      hi ← hex_value h;
      lo ← hex_value l;
      tail ← unhexlify rest;
      Some (String (ascii_of_N (hi * 16 + lo)) tail)
  | String _ EmptyString => None
  end.

(** Standard base64 (RFC 4648, section 4) with padding. *)
Definition b64_char (sextet : N) : ascii := char_at b64_alphabet sextet.
Definition b64_value (c : ascii) : option N := position c b64_alphabet.

Fixpoint b64encode (bytes : string) : string :=
  match bytes with
  | EmptyString => EmptyString
  | String a EmptyString =>
      let a := N_of_ascii a in
      String (b64_char (a / 4)) (String (b64_char (a mod 4 * 16))
        (String b64_pad (String b64_pad EmptyString)))
  | String a (String b EmptyString) =>
      let a := N_of_ascii a in
      let b := N_of_ascii b in
      String (b64_char (a / 4)) (String (b64_char (a mod 4 * 16 + b / 16))
        (String (b64_char (b mod 16 * 4)) (String b64_pad EmptyString)))
  | String a (String b (String c rest)) =>
      let a := N_of_ascii a in
      let b := N_of_ascii b in
      let c := N_of_ascii c in
      String (b64_char (a / 4)) (String (b64_char (a mod 4 * 16 + b / 16))
        (String (b64_char (b mod 16 * 4 + c / 64)) (String (b64_char (c mod 64))
          (b64encode rest))))
  end.

(** The last group of four characters: it may be padded, and the bits that
    do not make a whole byte must be zero. *)
Definition b64decode_last (c1 c2 c3 c4 : ascii) : option string :=
  v1 ← b64_value c1;
  v2 ← b64_value c2;
  if decide (c4 = b64_pad) then
    if decide (c3 = b64_pad) then
      if decide (v2 mod 16 = 0)%N
      then Some (String (ascii_of_N (v1 * 4 + v2 / 16)) EmptyString)
      else None
    else
      v3 ← b64_value c3;
      if decide (v3 mod 4 = 0)%N
      then Some (String (ascii_of_N (v1 * 4 + v2 / 16))
             (String (ascii_of_N (v2 mod 16 * 16 + v3 / 4)) EmptyString))
      else None
  else
    v3 ← b64_value c3;
    v4 ← b64_value c4;
    Some (String (ascii_of_N (v1 * 4 + v2 / 16))
      (String (ascii_of_N (v2 mod 16 * 16 + v3 / 4))
        (String (ascii_of_N (v3 mod 4 * 64 + v4)) EmptyString))).

Fixpoint b64decode (s : string) : option string :=
  match s with
  | EmptyString => Some EmptyString
  | String c1 (String c2 (String c3 (String c4 rest))) =>
      match rest with
      | EmptyString => b64decode_last c1 c2 c3 c4
      | String _ _ =>
          v1 ← b64_value c1;
          v2 ← b64_value c2;
          v3 ← b64_value c3;
          v4 ← b64_value c4;
          tail ← b64decode rest;
          Some (String (ascii_of_N (v1 * 4 + v2 / 16))
            (String (ascii_of_N (v2 mod 16 * 16 + v3 / 4))
              (String (ascii_of_N (v3 mod 4 * 64 + v4)) tail)))
      end
  | _ => None
  end.

(** Modelled from the spec: [TieClient._base64_to_hex] lives in
    [dxltieclient/client.py], which is not part of the sources at hand.
    Section 4.1, step 5b: decode standard base64, re-encode the bytes as
    lowercase hex; section 8: for all non-base64 strings the transform
    fails, which section 7 calls a transform error. *)
Definition _base64_to_hex (base64_str : json) : result json :=
  match base64_str with
  | JStr s =>
      match b64decode s with
      | Some bytes => Ok (JStr (hexlify bytes))
      | None => Raise TransformError
      end
  | _ => Raise TransformError
  end.

(** Modelled from the spec: [TieClient._transform_reputations] lives in
    [dxltieclient/client.py], which is not part of the sources at hand.
    Section 4.1, step 3: the nested mapping replaces the top-level value,
    and each of its entries is used as it is. *)
Definition _transform_reputations (reputations : json) : result json :=
  Ok reputations.

(** One digest, re-encoded from its wire representation to lowercase
    hexadecimal. *)
Definition reencode (wire : string → option string) (digest : json)
  : option json :=
  match digest with
  | JStr s => (λ bytes, JStr (hexlify bytes)) <$> wire s
  | _ => None
  end.

(** Modelled from the spec: [TieClient._transform_hashes] lives in
    [dxltieclient/client.py], which is not part of the sources at hand.
    Section 4.1, step 2: every (algorithm, digest) pair has its digest
    re-encoded from its wire representation to lowercase hexadecimal.  The
    specification leaves the wire representation open; [wire] reads it. *)
Definition _transform_hashes (wire : string → option string) (hashes : json)
  : result json :=
  match hashes with
  | JObj m =>
      if decide (map_Forall (λ _ digest, is_Some (reencode wire digest)) m)
      then Ok (JObj (omap (reencode wire) m))
      else Raise TransformError
  | _ => Raise TransformError
  end.

End TieClient.

(** ** Python's codecs, for the examples *)

Module PyLib.

Definition byte_in (lo hi : N) (c : ascii) : bool :=
  ((lo <=? N_of_ascii c) && (N_of_ascii c <=? hi))%N.

Definition continuation : ascii → bool := byte_in 128 191.

(** Well-formed UTF-8 byte sequences (RFC 3629, section 4). *)
Fixpoint utf8_valid (fuel : nat) (s : string) : bool :=
  match fuel with
  | O => false
  | S fuel =>
      match s with
      | EmptyString => true
      | String a rest =>
          if byte_in 0 127 a then utf8_valid fuel rest
          else
            match rest with
            | String b rest2 =>
                if byte_in 194 223 a then continuation b && utf8_valid fuel rest2
                else
                  match rest2 with
                  | String c rest3 =>
                      if byte_in 224 239 a then
                        (if byte_in 224 224 a then byte_in 160 191 b
                         else if byte_in 237 237 a then byte_in 128 159 b
                         else continuation b)
                        && continuation c && utf8_valid fuel rest3
                      else
                        match rest3 with
                        | String d rest4 =>
                            byte_in 240 244 a
                            && (if byte_in 240 240 a then byte_in 144 191 b
                                else if byte_in 244 244 a then byte_in 128 143 b
                                else continuation b)
                            && continuation c && continuation d
                            && utf8_valid fuel rest4
                        | EmptyString => false
                        end
                  | EmptyString => false
                  end
            | EmptyString => false
            end
      end
  end.

(** [bytes.decode(encoding="UTF-8")]: text is kept in its UTF-8 encoding, so
    decoding is validation. *)
Definition decode_utf8 (bytes : string) : option string :=
  if utf8_valid (S (String.length bytes)) bytes then Some bytes else None.

Definition dquote : ascii := "034"%char.
Definition quoted (s : string) : string :=
  String dquote (s +:+ String dquote EmptyString).

Definition is_ws (c : ascii) : bool :=
  bool_decide (c = " "%char) || bool_decide (c = "009"%char)
  || bool_decide (c = "010"%char) || bool_decide (c = "013"%char).

Fixpoint skip_ws (s : string) : string :=
  match s with
  | String c rest => if is_ws c then skip_ws rest else s
  | EmptyString => s
  end.

Definition digit (c : ascii) : option Z :=
  if byte_in 48 57 c then Some (Z.of_N (N_of_ascii c) - 48)%Z else None.

Fixpoint read_digits (acc : Z) (s : string) : Z * string :=
  match s with
  | String c rest =>
      match digit c with
      | Some v => read_digits (acc * 10 + v) rest
      | None => (acc, s)
      end
  | EmptyString => (acc, s)
  end.

(** The digits of a JSON integer: a single zero, or a non-zero digit
    followed by digits. *)
Definition read_nat (s : string) : option (Z * string) :=
  match s with
  | String c rest =>
      match digit c with
      | Some 0%Z => Some (0%Z, rest)
      | Some v => Some (read_digits v rest)
      | None => None
      end
  | EmptyString => None
  end.

(** Digits, counted: the fraction and the exponent need at least one. *)
Fixpoint read_counted (acc count : Z) (s : string) : Z * Z * string :=
  match s with
  | String c rest =>
      match digit c with
      | Some v => read_counted (acc * 10 + v) (count + 1) rest
      | None => (acc, count, s)
      end
  | EmptyString => (acc, count, s)
  end.

(** [n / d] rounded to the nearest integer, ties to even; [0 <= n],
    [0 < d]. *)
Definition round_half_even (n d : Z) : Z :=
  let q := (n / d)%Z in
  let r := (n mod d)%Z in
  if (2 * r <? d)%Z then q
  else if (d <? 2 * r)%Z then (q + 1)%Z
  else if Z.even q then q else (q + 1)%Z.

(** [float(text)] for the decimal [m * 10 ^ e] with [0 <= m]: the bits of
    the nearest IEEE 754 double, ties to even, infinity on overflow. *)
Definition binary64 (negative : bool) (m e : Z) : Z :=
  let sign := if negative then (2 ^ 63)%Z else 0%Z in
  if (m =? 0)%Z then sign
  else
    let n := if (0 <=? e)%Z then (m * 10 ^ e)%Z else m in
    let d := if (0 <=? e)%Z then 1%Z else (10 ^ (- e))%Z in
    let k0 := (Z.log2 n - Z.log2 d)%Z in
    let below :=
      if (0 <=? k0)%Z then (n <? d * 2 ^ k0)%Z
      else (n * 2 ^ (- k0) <? d)%Z in
    let k := if below then (k0 - 1)%Z else k0 in
    let E := Z.max k (-1022) in
    let ulp := (E - 52)%Z in
    let significand :=
      if (0 <=? ulp)%Z then round_half_even n (d * 2 ^ ulp)
      else round_half_even (n * 2 ^ (- ulp)) d in
    let bits := ((E + 1022) * 2 ^ 52 + significand)%Z in
    (sign + Z.min bits (2047 * 2 ^ 52))%Z.

Definition nan_bits : Z := (2047 * 2 ^ 52 + 2 ^ 51)%Z.
Definition infinity_bits : Z := (2047 * 2 ^ 52)%Z.
Definition minus_infinity_bits : Z := (2 ^ 63 + 2047 * 2 ^ 52)%Z.

(** A JSON number, from its digits on (the sign is read by the caller):
    an [int] when it has neither fraction nor exponent, a [float]
    otherwise. *)
Definition read_number (negative : bool) (s : string)
  : option (json * string) :=
  '(whole, after_int) ← read_nat s;
  let '(m, scale, after_frac) :=
    match after_int with
    | String "."%char rest =>
        let '(m, count, rest1) := read_counted whole 0 rest in
        if (0 <? count)%Z then (m, count, rest1)
        else (whole, 0%Z, after_int)
    | _ => (whole, 0%Z, after_int)
    end in
  let '(exponent, after_exp) :=
    match after_frac with
    | String c rest =>
        if bool_decide (c = "e"%char) || bool_decide (c = "E"%char) then
          let '(minus, digits) :=
            match rest with
            | String "-"%char rest1 => (true, rest1)
            | String "+"%char rest1 => (false, rest1)
            | _ => (false, rest)
            end in
          let '(x, count, rest1) := read_counted 0 0 digits in
          if (0 <? count)%Z
          then (Some (if minus : bool then (- x)%Z else x), rest1)
          else (None, after_frac)
        else (None, after_frac)
    | EmptyString => (None, after_frac)
    end in
  match exponent with
  | None =>
      if (scale =? 0)%Z
      then Some (JInt (if negative then (- whole)%Z else whole), after_exp)
      else Some (JFloat (binary64 negative m (- scale)), after_exp)
  | Some x => Some (JFloat (binary64 negative m (x - scale)), after_exp)
  end.

Definition hex_digit (c : ascii) : option Z :=
  let n := Z.of_N (N_of_ascii c) in
  if byte_in 48 57 c then Some (n - 48)%Z
  else if byte_in 65 70 c then Some (n - 55)%Z
  else if byte_in 97 102 c then Some (n - 87)%Z
  else None.

(** The four hexadecimal digits of a unicode escape. *)
Definition read_hex4 (s : string) : option (Z * string) :=
  match s with
  | String a (String b (String c (String d rest))) =>
      h1 ← hex_digit a;
      h2 ← hex_digit b;
      h3 ← hex_digit c;
      h4 ← hex_digit d;
      Some ((((h1 * 16 + h2) * 16 + h3) * 16 + h4)%Z, rest)
  | _ => None
  end.

Definition byte_of (n : Z) : ascii := ascii_of_N (Z.to_N n).

(** The UTF-8 form of a code point; a lone surrogate, which a Python
    string can hold, takes the three bytes of its range. *)
Definition utf8_encode (cp : Z) : string :=
  if (cp <? 128)%Z then String (byte_of cp) EmptyString
  else if (cp <? 2048)%Z then
    String (byte_of (192 + cp / 64))
      (String (byte_of (128 + cp mod 64)) EmptyString)
  else if (cp <? 65536)%Z then
    String (byte_of (224 + cp / 4096))
      (String (byte_of (128 + cp / 64 mod 64))
         (String (byte_of (128 + cp mod 64)) EmptyString))
  else
    String (byte_of (240 + cp / 262144))
      (String (byte_of (128 + cp / 4096 mod 64))
         (String (byte_of (128 + cp / 64 mod 64))
            (String (byte_of (128 + cp mod 64)) EmptyString))).

Definition backslash : ascii := "092"%char.

(** The character of a one-letter escape. *)
Definition simple_escape (c : ascii) : option ascii :=
  if decide (c = dquote) then Some dquote
  else if decide (c = backslash) then Some backslash
  else if decide (c = "/"%char) then Some "/"%char
  else if decide (c = "b"%char) then Some "008"%char
  else if decide (c = "f"%char) then Some "012"%char
  else if decide (c = "n"%char) then Some "010"%char
  else if decide (c = "r"%char) then Some "013"%char
  else if decide (c = "t"%char) then Some "009"%char
  else None.

(** A unicode escape, from its digits on: a high surrogate followed by the
    escape of a low surrogate makes one code point. *)
Definition read_unicode_escape (s : string) : option (string * string) :=
  '(u, rest) ← read_hex4 s;
  if ((55296 <=? u) && (u <=? 56319))%Z then
    match rest with
    | String c1 (String c2 rest1) =>
        if bool_decide (c1 = backslash) && bool_decide (c2 = "u"%char) then
          '(u2, rest2) ← read_hex4 rest1;
          if ((56320 <=? u2) && (u2 <=? 57343))%Z
          then Some (utf8_encode
                       (65536 + (u - 55296) * 1024 + (u2 - 56320))%Z, rest2)
          else Some (utf8_encode u, rest)
        else Some (utf8_encode u, rest)
    | _ => Some (utf8_encode u, rest)
    end
  else Some (utf8_encode u, rest).

(** The characters of a string up to its closing quote, escapes decoded; a
    control character is not accepted (strict mode is the default). *)
Fixpoint read_chars (fuel : nat) (s : string) : option (string * string) :=
  match fuel with
  | O => None
  | S fuel =>
      match s with
      | EmptyString => None
      | String c rest =>
          if decide (c = dquote) then Some (EmptyString, rest)
          else if decide (c = backslash) then
            match rest with
            | String e rest1 =>
                if decide (e = "u"%char) then
                  '(chars, rest2) ← read_unicode_escape rest1;
                  '(body, rest3) ← read_chars fuel rest2;
                  Some (chars +:+ body, rest3)
                else
                  c' ← simple_escape e;
                  '(body, rest2) ← read_chars fuel rest1;
                  Some (String c' body, rest2)
            | EmptyString => None
            end
          else if byte_in 0 31 c then None
          else
            '(body, rest1) ← read_chars fuel rest;
            Some (String c body, rest1)
      end
  end.

Definition read_string (s : string) : option (string * string) :=
  read_chars (S (String.length s)) s.

Definition expect (word : string) (v : json) (s : string)
  : option (json * string) :=
  if is_prefix word s
  then Some (v, String.substring (String.length word) (String.length s) s)
  else None.

Fixpoint read_value (fuel : nat) (s : string) : option (json * string) :=
  match fuel with
  | O => None
  | S fuel =>
      match skip_ws s with
      | EmptyString => None
      | String c rest =>
          if decide (c = dquote) then
            '(body, rest') ← read_string rest; Some (JStr body, rest')
          else if decide (c = "{"%char) then
            match skip_ws rest with
            | String "}"%char rest' => Some (JObj ∅, rest')
            | _ => '(m, rest') ← read_members fuel rest; Some (JObj m, rest')
            end
          else if decide (c = "["%char) then
            match skip_ws rest with
            | String "]"%char rest' => Some (JArr [], rest')
            | _ => '(l, rest') ← read_elements fuel rest; Some (JArr l, rest')
            end
          else if decide (c = "t"%char) then
            expect "true" (JBool true) (String c rest)
          else if decide (c = "f"%char) then
            expect "false" (JBool false) (String c rest)
          else if decide (c = "n"%char) then
            expect "null" JNull (String c rest)
          else if decide (c = "N"%char) then
            expect "NaN" (JFloat nan_bits) (String c rest)
          else if decide (c = "I"%char) then
            expect "Infinity" (JFloat infinity_bits) (String c rest)
          else if decide (c = "-"%char) then
            match read_number true rest with
            | Some r => Some r
            | None => expect "Infinity" (JFloat minus_infinity_bits) rest
            end
          else read_number false (String c rest)
      end
  end
with read_members (fuel : nat) (s : string)
  : option (gmap string json * string) :=
  match fuel with
  | O => None
  | S fuel =>
      match skip_ws s with
      | String c rest =>
          if decide (c = dquote) then
            '(key, rest) ← read_string rest;
            match skip_ws rest with
            | String ":"%char rest =>
                '(v, rest) ← read_value fuel rest;
                match skip_ws rest with
                | String "}"%char rest => Some ({[ key := v ]}, rest)
                | String ","%char rest =>
                    '(m, rest) ← read_members fuel rest;
                    Some (m ∪ {[ key := v ]}, rest)
                | _ => None
                end
            | _ => None
            end
          else None
      | EmptyString => None
      end
  end
with read_elements (fuel : nat) (s : string) : option (list json * string) :=
  match fuel with
  | O => None
  | S fuel =>
      '(v, rest) ← read_value fuel s;
      match skip_ws rest with
      | String "]"%char rest => Some ([v], rest)
      | String ","%char rest =>
          '(l, rest) ← read_elements fuel rest; Some (v :: l, rest)
      | _ => None
      end
  end.

(** [json.loads] with its default arguments: besides the documents of the
    JSON grammar it reads the literals NaN, Infinity and -Infinity.  Of two
    members with the same name the later one stays.  [None] stands for the
    ValueError of a text that is not read; the recursion limit of the
    interpreter is not modelled. *)
Definition json_loads (text : string) : option json :=
  '(v, rest) ← read_value (S (2 * String.length text)) text;
  match skip_ws rest with
  | EmptyString => Some v
  | String _ _ => None
  end.

End PyLib.

(** ** The JSON grammar *)

(** The texts of RFC 8259, as a recogniser: each function returns what is
    left of the text after the construct it names. *)
Module Rfc8259.

Definition char_in (lo hi : N) (c : ascii) : bool :=
  ((lo <=? N_of_ascii c) && (N_of_ascii c <=? hi))%N.

Definition is_char (n : N) (c : ascii) : bool := (N_of_ascii c =? n)%N.

(** ws: space, horizontal tab, line feed, carriage return. *)
Fixpoint ws (s : string) : string :=
  match s with
  | String c rest =>
      if is_char 32 c || is_char 9 c || is_char 10 c || is_char 13 c
      then ws rest else s
  | EmptyString => s
  end.

Definition is_digit : ascii → bool := char_in 48 57.

Definition is_hexdig (c : ascii) : bool :=
  is_digit c || char_in 65 70 c || char_in 97 102 c.

Fixpoint digits (s : string) : string :=
  match s with
  | String c rest => if is_digit c then digits rest else s
  | EmptyString => s
  end.

(** 1*DIGIT *)
Definition digits1 (s : string) : option string :=
  match s with
  | String c rest => if is_digit c then Some (digits rest) else None
  | EmptyString => None
  end.

(** int = zero / ( digit1-9 *DIGIT ) *)
Definition int (s : string) : option string :=
  match s with
  | String c rest =>
      if is_char 48 c then Some rest
      else if char_in 49 57 c then Some (digits rest)
      else None
  | EmptyString => None
  end.

(** frac = decimal-point 1*DIGIT, optional *)
Definition frac (s : string) : option string :=
  match s with
  | String c rest => if is_char 46 c then digits1 rest else Some s
  | EmptyString => Some s
  end.

(** exp = e [ minus / plus ] 1*DIGIT, optional *)
Definition exp (s : string) : option string :=
  match s with
  | String c rest =>
      if is_char 101 c || is_char 69 c then
        match rest with
        | String sign rest' =>
            if is_char 45 sign || is_char 43 sign then digits1 rest'
            else digits1 rest
        | EmptyString => None
        end
      else Some s
  | EmptyString => Some s
  end.

(** number = [ minus ] int [ frac ] [ exp ] *)
Definition number (s : string) : option string :=
  let unsigned :=
    match s with
    | String c rest => if is_char 45 c then rest else s
    | EmptyString => s
    end in
  after_int ← int unsigned;
  after_frac ← frac after_int;
  exp after_frac.

(** The characters of a string after its opening quotation mark, up to the
    closing one: unescaped characters from U+0020 on except the quotation
    mark and the reverse solidus, and the escapes. *)
Fixpoint chars (s : string) : option string :=
  match s with
  | EmptyString => None
  | String c rest =>
      if is_char 34 c then Some rest
      else if is_char 92 c then
        match rest with
        | String e rest1 =>
            if is_char 34 e || is_char 92 e || is_char 47 e || is_char 98 e
               || is_char 102 e || is_char 110 e || is_char 114 e
               || is_char 116 e
            then chars rest1
            else if is_char 117 e then
              match rest1 with
              | String h1 (String h2 (String h3 (String h4 rest2))) =>
                  if is_hexdig h1 && is_hexdig h2 && is_hexdig h3
                     && is_hexdig h4
                  then chars rest2 else None
              | _ => None
              end
            else None
        | EmptyString => None
        end
      else if char_in 0 31 c then None
      else chars rest
  end.

Definition literal (word : string) (s : string) : option string :=
  if is_prefix word s
  then Some (String.substring (String.length word) (String.length s) s)
  else None.

(** value = false / null / true / object / array / number / string, with
    the white space the structural characters allow around them. *)
Fixpoint value (fuel : nat) (s : string) : option string :=
  match fuel with
  | O => None
  | S fuel =>
      match s with
      | EmptyString => None
      | String c rest =>
          if is_char 34 c then chars rest
          else if is_char 123 c then
            match ws rest with
            | String c' rest' =>
                if is_char 125 c' then Some rest' else members fuel (ws rest)
            | EmptyString => None
            end
          else if is_char 91 c then
            match ws rest with
            | String c' rest' =>
                if is_char 93 c' then Some rest' else elements fuel (ws rest)
            | EmptyString => None
            end
          else if is_char 116 c then literal "true" s
          else if is_char 102 c then literal "false" s
          else if is_char 110 c then literal "null" s
          else number s
      end
  end
with members (fuel : nat) (s : string) : option string :=
  match fuel with
  | O => None
  | S fuel =>
      match s with
      | String c rest =>
          if is_char 34 c then
            after_name ← chars rest;
            match ws after_name with
            | String colon rest1 =>
                if is_char 58 colon then
                  after_value ← value fuel (ws rest1);
                  match ws after_value with
                  | String c' rest2 =>
                      if is_char 125 c' then Some rest2
                      else if is_char 44 c' then members fuel (ws rest2)
                      else None
                  | EmptyString => None
                  end
                else None
            | EmptyString => None
            end
          else None
      | EmptyString => None
      end
  end
with elements (fuel : nat) (s : string) : option string :=
  match fuel with
  | O => None
  | S fuel =>
      after_value ← value fuel s;
      match ws after_value with
      | String c' rest =>
          if is_char 93 c' then Some rest
          else if is_char 44 c' then elements fuel (ws rest)
          else None
      | EmptyString => None
      end
  end.

(** JSON-text = ws value ws *)
Definition valid (text : string) : bool :=
  match value (S (2 * String.length text)) (ws text) with
  | Some rest =>
      match ws rest with
      | EmptyString => true
      | String _ _ => false
      end
  | None => false
  end.

End Rfc8259.

(** ** A derived class and some events, for the examples *)

(** The callback of the usage example in the docstring: it dumps every
    record it is given; the state is what has been printed so far. *)
Module MyReputationChangeCallback.

Definition on_reputation_change
    (rep_change_dict : json) (original_event : Event) (printed : list json)
  : result () * list json :=
  (Ok (), (printed ++ [rep_change_dict])%list).

(** [on_event] as the derived class inherits it, with Python's codecs and
    the helpers of the specification; the top-level and certificate hashes
    are taken to be hexadecimal on the wire. *)
Definition on_event : Event → M (list json) () :=
  on_event PyLib.decode_utf8 PyLib.json_loads
    (TieClient._transform_hashes TieClient.unhexlify)
    TieClient._transform_reputations TieClient._base64_to_hex
    on_reputation_change.

Definition normalize : json → result json :=
  normalize (TieClient._transform_hashes TieClient.unhexlify)
    TieClient._transform_reputations TieClient._base64_to_hex.

End MyReputationChangeCallback.

Module Samples.

Definition q : string → string := PyLib.quoted.

Definition file_event (bytes : string) : Event :=
  {| payload := bytes;
     destination_topic := "file reputation change";
     message_id := "1" |}.

Definition cert_event (bytes : string) : Event :=
  {| payload := bytes;
     destination_topic := "certificate reputation change";
     message_id := "2" |}.

Definition start : world (list json) := World [] [].

(** A record with the change time only. *)
Definition time_payload : string :=
  "{" +:+ q "updateTime" +:+ ": 1481219581}".
Definition time_record : gmap string json :=
  {[ "updateTime" := JInt 1481219581 ]}.

(** Bytes that are not UTF-8, and text that is not JSON. *)
Definition not_utf8 : string := String (ascii_of_N 255) "{}".
Definition not_json : string := "{" +:+ q "hashes" +:+ ":".

(** New reputations wrapped under reputations, next to hashes. *)
Definition reputation : json :=
  JObj (<[ "trustLevel" := JInt 99 ]> {[ "providerId" := JInt 1 ]}).
Definition wrapped_payload : string :=
  "{" +:+ q "hashes" +:+ ": {" +:+ q "md5" +:+ ": " +:+ q "F2C7" +:+ "}, "
  +:+ q "newReputations" +:+ ": {" +:+ q "reputations" +:+ ": {"
  +:+ q "1" +:+ ": {" +:+ q "providerId" +:+ ": 1, "
  +:+ q "trustLevel" +:+ ": 99}}}, "
  +:+ q "updateTime" +:+ ": 1481219581}".
Definition wrapped_record : gmap string json :=
  <[ "hashes" := JObj {[ "md5" := JStr "F2C7" ]} ]>
    (<[ "newReputations" :=
          JObj {[ "reputations" := JObj {[ "1" := reputation ]} ]} ]>
       {[ "updateTime" := JInt 1481219581 ]}).
Definition unwrapped_record : gmap string json :=
  <[ "hashes" := JObj {[ "md5" := JStr "f2c7" ]} ]>
    (<[ "newReputations" := JObj {[ "1" := reputation ]} ]>
       {[ "updateTime" := JInt 1481219581 ]}).

(** A file change with a certificate relationship. *)
Definition certificate : gmap string json :=
  <[ "issuer" := JStr "x" ]>
    (<[ "hashes" := JObj {[ "md5" := JStr "F2C7" ]} ]>
       {[ "publicKeySha1" := JStr "AAEC" ]}).
Definition certificate' : gmap string json :=
  <[ "issuer" := JStr "x" ]>
    (<[ "hashes" := JObj {[ "md5" := JStr "f2c7" ]} ]>
       {[ "publicKeySha1" := JStr "000102" ]}).
Definition relationships : gmap string json :=
  <[ "other" := JInt 1 ]> {[ "certificate" := JObj certificate ]}.
Definition relationships_payload : string :=
  "{" +:+ q "relationships" +:+ ": {" +:+ q "certificate" +:+ ": {"
  +:+ q "publicKeySha1" +:+ ": " +:+ q "AAEC" +:+ ", "
  +:+ q "hashes" +:+ ": {" +:+ q "md5" +:+ ": " +:+ q "F2C7" +:+ "}, "
  +:+ q "issuer" +:+ ": " +:+ q "x" +:+ "}, " +:+ q "other" +:+ ": 1}}".
Definition relationships_record : gmap string json :=
  {[ "relationships" := JObj relationships ]}.

(** A certificate change with its public key, well and badly encoded. *)
Definition key_payload : string :=
  "{" +:+ q "publicKeySha1" +:+ ": " +:+ q "AAEC" +:+ ", "
  +:+ q "updateTime" +:+ ": 1481219581}".
Definition key_record : gmap string json :=
  <[ "publicKeySha1" := JStr "AAEC" ]> time_record.
Definition bad_key_payload : string :=
  "{" +:+ q "publicKeySha1" +:+ ": " +:+ q "AAE" +:+ "}".
Definition bad_key_record : gmap string json :=
  {[ "publicKeySha1" := JStr "AAE" ]}.

End Samples.

Module EdgeSamples.
Import Samples.

(** A helper that returns its argument. *)
Definition keep (v : json) : result json := Ok v.

(** Documents that are no objects. *)
Definition null_payload : string := "null".
Definition list_payload : string := "[" +:+ q "updateTime" +:+ ", 1]".
Definition list_document : json := JArr [JStr "updateTime"; JInt 1].
Definition hashes_list_payload : string := "[" +:+ q "hashes" +:+ "]".

(** A record with null where the reputations should be. *)
Definition null_field_payload : string :=
  "{" +:+ q "newReputations" +:+ ": null, " +:+ q "updateTime" +:+ ": 5}".
Definition null_field_record : gmap string json :=
  <[ "newReputations" := JNull ]> {[ "updateTime" := JInt 5 ]}.

(** A text that is not JSON and that [json.loads] reads. *)
Definition nan_payload : string := "{" +:+ q "updateTime" +:+ ": NaN}".
Definition nan_record : gmap string json :=
  {[ "updateTime" := JFloat PyLib.nan_bits ]}.

(** Two wrappers with the same reputations. *)
Definition bare_wrapper : gmap string json :=
  {[ "reputations" := JObj {[ "1" := reputation ]} ]}.
Definition crowded_wrapper : gmap string json :=
  <[ "count" := JInt 1 ]> bare_wrapper.

End EdgeSamples.

(** ** Vocabulary of the statements *)

(** [r] is a dictionary with the keys of [d] that agrees with [d] outside
    the key [K]. *)
Definition updates_at (K : string) (d : gmap string json) (r : json) : Prop :=
  ∃ d', r = JObj d' ∧ dom d' = dom d ∧ ∀ k, k ≠ K → d' !! k = d !! k.

(** A field that is absent stays absent; one that is present holds the
    result of [f] on its former value. *)
Definition transformed_by (f : json → result json) (old new : option json)
  : Prop :=
  match old with
  | Some v => ∃ v', f v = Ok v' ∧ new = Some v'
  | None => new = None
  end.

(** What lines 92-97 do to the certificate dictionary. *)
Definition certificate_transformed (th b2h : json → result json)
    (cert cert' : gmap string json) : Prop :=
  transformed_by th (cert !! "hashes") (cert' !! "hashes") ∧
  transformed_by b2h (cert !! "publicKeySha1") (cert' !! "publicKeySha1") ∧
  ∀ k, k ≠ "hashes" → k ≠ "publicKeySha1" → cert' !! k = cert !! k.

(** The errors of line 66. *)
Definition decode_error (e : exn) : Prop :=
  e = UnicodeDecodeError ∨ e = ValueError.

(** The run ended with an exception and left the world as it was: the
    handler was not called. *)
Definition stopped {S : Type} (w : world S) (out : result () * world S)
  : Prop :=
  ∃ e, out = (Raise e, w).

(** ** Vocabulary of the further statements *)

(** The JSON values that are no containers: [None], [bool], numbers. *)
Definition is_scalar (v : json) : bool :=
  match v with
  | JNull | JBool _ | JInt _ | JFloat _ => true
  | JStr _ | JArr _ | JObj _ => false
  end.

(** The values other than [dict] on which [in] is defined: [list] and
    [unicode]. *)
Definition is_sequence (v : json) : bool :=
  match v with
  | JArr _ | JStr _ => true
  | _ => false
  end.

(** The answer of [key in v], where there is one. *)
Definition mentions (v : json) (key : string) : bool :=
  match py_in key v with
  | Ok b => b
  | Raise _ => false
  end.

(** [e] is an exception that [f] raises on some argument. *)
Definition raised_by (f : json → result json) (e : exn) : Prop :=
  ∃ x, f x = Raise e.

(** The exception of the first computation that raises one. *)
Fixpoint first_error {A : Type} (ms : list (result A)) : option exn :=
  match ms with
  | [] => None
  | Ok _ :: ms => first_error ms
  | Raise e :: _ => Some e
  end.

(** A transform of the value under one key, if the key is there. *)
Definition field (f : json → result json) (o : option json)
  : result (option json) :=
  match o with
  | Some v => v' ← f v; Ok (Some v')
  | None => Ok None
  end.

Definition put (K : string) (o : option json) (d : gmap string json)
  : gmap string json :=
  match o with
  | Some v => <[K := v]> d
  | None => d
  end.

(** What lines 75-78 and 82-85 do to the value under the key. *)
Definition unwrap_value (tr : json → result json) (wrapper : json)
  : result json :=
  wrapped ← py_in "reputations" wrapper;
  if (wrapped : bool) then
    inner ← py_getitem wrapper "reputations";
    tr inner
  else Ok wrapper.

(** What lines 90-97 do to the value under relationships. *)
Definition relationships_value (th b2h : json → result json)
    (relationships_dict : json) : result json :=
  has_cert ← py_in "certificate" relationships_dict;
  if (has_cert : bool) then
    cert_dict ← py_getitem relationships_dict "certificate";
    cert_dict ← transform_cert_hashes th cert_dict;
    cert_dict ← transform_cert_public_key b2h cert_dict;
    py_setitem relationships_dict "certificate" cert_dict
  else Ok relationships_dict.

(** A helper that raises nothing. *)
Definition total (f : json → result json) : Prop :=
  ∀ x, ∃ y, f x = Ok y.

(** A key that is missing or holds an object. *)
Definition object_or_absent (o : option json) : Prop :=
  match o with
  | Some (JObj _) | None => True
  | Some _ => False
  end.

(** A record whose container-valued fields are objects: the reputations,
    the relationships and, inside them, the certificate. *)
Definition well_shaped (d : gmap string json) : Prop :=
  object_or_absent (d !! RepChangeEventProp.NEW_REPUTATIONS) ∧
  object_or_absent (d !! RepChangeEventProp.OLD_REPUTATIONS) ∧
  match d !! FileRepChangeEventProp.RELATIONSHIPS with
  | Some (JObj rel) => object_or_absent (rel !! "certificate")
  | Some _ => False
  | None => True
  end.

(** * Properties *)

(** ** The container protocol on dictionaries *)

Lemma py_in_obj (key : string) (d : gmap string json) :
  py_in key (JObj d) = Ok (bool_decide (is_Some (d !! key))).
Proof. reflexivity. Qed.

Lemma py_in_present (key : string) (d : gmap string json) (v : json) :
  d !! key = Some v → py_in key (JObj d) = Ok true.
Proof.
  intros Hk. rewrite py_in_obj. f_equal. apply bool_decide_eq_true. eauto.
Qed.

Lemma py_in_absent (key : string) (d : gmap string json) :
  d !! key = None → py_in key (JObj d) = Ok false.
Proof.
  intros Hk. rewrite py_in_obj. f_equal. apply bool_decide_eq_false.
  rewrite Hk. apply is_Some_None.
Qed.

Lemma py_getitem_present (key : string) (d : gmap string json) (v : json) :
  d !! key = Some v → py_getitem (JObj d) key = Ok v.
Proof. intros Hk. simpl. by rewrite Hk. Qed.

(** Only a dictionary can be indexed by a string. *)
Lemma py_getitem_ok (v x : json) (key : string) :
  py_getitem v key = Ok x → ∃ d, v = JObj d ∧ d !! key = Some x.
Proof.
  destruct v as [| | | | | |d]; simpl; try discriminate.
  destruct (d !! key) eqn:Hk; [|discriminate].
  intros [= ->]. eauto.
Qed.

Lemma bind_ok {A B} (m : result A) (f : A → result B) (b : B) :
  m ≫= f = Ok b → ∃ a, m = Ok a ∧ f a = Ok b.
Proof. destruct m; simpl; [eauto | discriminate]. Qed.

Lemma updates_at_refl (K : string) (d : gmap string json) :
  updates_at K d (JObj d).
Proof. by exists d. Qed.

Lemma updates_at_insert (K : string) (d : gmap string json) (v : json) :
  is_Some (d !! K) → updates_at K d (JObj (<[K := v]> d)).
Proof.
  intros HK. exists (<[K := v]> d). split; [done|]. split.
  - rewrite dom_insert_L.
    by apply subseteq_union_1_L, singleton_subseteq_l, elem_of_dom.
  - intros k Hk. by apply lookup_insert_ne.
Qed.

Section Steps.

Variable decode_utf8 : string → option string.
Variable json_loads : string → option json.
Variable _transform_hashes : json → result json.
Variable _transform_reputations : json → result json.
Variable _base64_to_hex : json → result json.

(** Each step on a dictionary, by cases on the presence of its key. *)
Lemma transform_hashes_obj (d : gmap string json) :
  transform_hashes _transform_hashes (JObj d) =
  match d !! RepChangeEventProp.HASHES with
  | Some old =>
      new ← _transform_hashes old;
      Ok (JObj (<[RepChangeEventProp.HASHES := new]> d))
  | None => Ok (JObj d)
  end.
Proof.
  unfold transform_hashes.
  destruct (d !! RepChangeEventProp.HASHES) as [old|] eqn:Hk.
  - by rewrite (py_in_present _ _ _ Hk), (py_getitem_present _ _ _ Hk).
  - by rewrite (py_in_absent _ _ Hk).
Qed.

Lemma unwrap_reputations_obj (key : string) (d : gmap string json) :
  unwrap_reputations _transform_reputations key (JObj d) =
  match d !! key with
  | Some wrapper =>
      wrapped ← py_in "reputations" wrapper;
      if (wrapped : bool) then
        inner ← py_getitem wrapper "reputations";
        new ← _transform_reputations inner;
        Ok (JObj (<[key := new]> d))
      else Ok (JObj d)
  | None => Ok (JObj d)
  end.
Proof.
  unfold unwrap_reputations.
  destruct (d !! key) as [wrapper|] eqn:Hk.
  - by rewrite (py_in_present _ _ _ Hk), (py_getitem_present _ _ _ Hk).
  - by rewrite (py_in_absent _ _ Hk).
Qed.

Lemma transform_cert_hashes_obj (cert : gmap string json) :
  transform_cert_hashes _transform_hashes (JObj cert) =
  match cert !! "hashes" with
  | Some old =>
      new ← _transform_hashes old; Ok (JObj (<["hashes" := new]> cert))
  | None => Ok (JObj cert)
  end.
Proof.
  unfold transform_cert_hashes.
  destruct (cert !! "hashes") as [old|] eqn:Hk.
  - by rewrite (py_in_present _ _ _ Hk), (py_getitem_present _ _ _ Hk).
  - by rewrite (py_in_absent _ _ Hk).
Qed.

Lemma transform_cert_public_key_obj (cert : gmap string json) :
  transform_cert_public_key _base64_to_hex (JObj cert) =
  match cert !! "publicKeySha1" with
  | Some old =>
      new ← _base64_to_hex old; Ok (JObj (<["publicKeySha1" := new]> cert))
  | None => Ok (JObj cert)
  end.
Proof.
  unfold transform_cert_public_key.
  destruct (cert !! "publicKeySha1") as [old|] eqn:Hk.
  - by rewrite (py_in_present _ _ _ Hk), (py_getitem_present _ _ _ Hk).
  - by rewrite (py_in_absent _ _ Hk).
Qed.

Lemma transform_relationships_obj (d : gmap string json) :
  transform_relationships _transform_hashes _base64_to_hex (JObj d) =
  match d !! FileRepChangeEventProp.RELATIONSHIPS with
  | Some relationships_dict =>
      has_cert ← py_in "certificate" relationships_dict;
      if (has_cert : bool) then
        cert_dict ← py_getitem relationships_dict "certificate";
        cert_dict ← transform_cert_hashes _transform_hashes cert_dict;
        cert_dict ← transform_cert_public_key _base64_to_hex cert_dict;
        relationships_dict ←
          py_setitem relationships_dict "certificate" cert_dict;
        Ok (JObj (<[FileRepChangeEventProp.RELATIONSHIPS :=
                      relationships_dict]> d))
      else Ok (JObj d)
  | None => Ok (JObj d)
  end.
Proof.
  unfold transform_relationships.
  destruct (d !! FileRepChangeEventProp.RELATIONSHIPS) as [rel|] eqn:Hk.
  - by rewrite (py_in_present _ _ _ Hk), (py_getitem_present _ _ _ Hk).
  - by rewrite (py_in_absent _ _ Hk).
Qed.

Lemma transform_public_key_obj (d : gmap string json) :
  transform_public_key _base64_to_hex (JObj d) =
  match d !! CertRepChangeEventProp.PUBLIC_KEY_SHA1 with
  | Some old =>
      new ← _base64_to_hex old;
      Ok (JObj (<[CertRepChangeEventProp.PUBLIC_KEY_SHA1 := new]> d))
  | None => Ok (JObj d)
  end.
Proof.
  unfold transform_public_key.
  destruct (d !! CertRepChangeEventProp.PUBLIC_KEY_SHA1) as [old|] eqn:Hk.
  - by rewrite (py_in_present _ _ _ Hk), (py_getitem_present _ _ _ Hk).
  - by rewrite (py_in_absent _ _ Hk).
Qed.

(** Each step that succeeds on a dictionary leaves a dictionary with the
    same keys, changed at most under the key of the step. *)
Lemma transform_hashes_frame (d : gmap string json) (r : json) :
  transform_hashes _transform_hashes (JObj d) = Ok r →
  updates_at RepChangeEventProp.HASHES d r.
Proof.
  rewrite transform_hashes_obj.
  destruct (d !! RepChangeEventProp.HASHES) as [old|] eqn:Hk.
  - intros Hr. apply bind_ok in Hr as (new & _ & Hr). injection Hr as <-.
    apply updates_at_insert. eauto.
  - intros [= <-]. apply updates_at_refl.
Qed.

Lemma unwrap_reputations_frame (key : string) (d : gmap string json) (r : json) :
  unwrap_reputations _transform_reputations key (JObj d) = Ok r →
  updates_at key d r.
Proof.
  rewrite unwrap_reputations_obj.
  destruct (d !! key) as [wrapper|] eqn:Hk.
  - intros Hr. apply bind_ok in Hr as ([] & _ & Hr).
    + apply bind_ok in Hr as (inner & _ & Hr).
      apply bind_ok in Hr as (new & _ & Hr). injection Hr as <-.
      apply updates_at_insert. eauto.
    + injection Hr as <-. apply updates_at_refl.
  - intros [= <-]. apply updates_at_refl.
Qed.

Lemma transform_relationships_frame (d : gmap string json) (r : json) :
  transform_relationships _transform_hashes _base64_to_hex (JObj d) = Ok r →
  updates_at FileRepChangeEventProp.RELATIONSHIPS d r.
Proof.
  rewrite transform_relationships_obj.
  destruct (d !! FileRepChangeEventProp.RELATIONSHIPS) as [rel|] eqn:Hk.
  - intros Hr. apply bind_ok in Hr as ([] & _ & Hr).
    + apply bind_ok in Hr as (c0 & _ & Hr).
      apply bind_ok in Hr as (c1 & _ & Hr).
      apply bind_ok in Hr as (c2 & _ & Hr).
      apply bind_ok in Hr as (rel' & _ & Hr). injection Hr as <-.
      apply updates_at_insert. eauto.
    + injection Hr as <-. apply updates_at_refl.
  - intros [= <-]. apply updates_at_refl.
Qed.

Lemma transform_public_key_frame (d : gmap string json) (r : json) :
  transform_public_key _base64_to_hex (JObj d) = Ok r →
  updates_at CertRepChangeEventProp.PUBLIC_KEY_SHA1 d r.
Proof.
  rewrite transform_public_key_obj.
  destruct (d !! CertRepChangeEventProp.PUBLIC_KEY_SHA1) as [old|] eqn:Hk.
  - intros Hr. apply bind_ok in Hr as (new & _ & Hr). injection Hr as <-.
    apply updates_at_insert. eauto.
  - intros [= <-]. apply updates_at_refl.
Qed.

(** The five steps of [normalize], one after the other. *)
Lemma normalize_ok (d : gmap string json) (r : json) :
  normalize _transform_hashes _transform_reputations _base64_to_hex (JObj d)
    = Ok r →
  ∃ d1 d2 d3 d4 : gmap string json,
    transform_hashes _transform_hashes (JObj d) = Ok (JObj d1) ∧
    updates_at RepChangeEventProp.HASHES d (JObj d1) ∧
    unwrap_reputations _transform_reputations
      RepChangeEventProp.NEW_REPUTATIONS (JObj d1) = Ok (JObj d2) ∧
    updates_at RepChangeEventProp.NEW_REPUTATIONS d1 (JObj d2) ∧
    unwrap_reputations _transform_reputations
      RepChangeEventProp.OLD_REPUTATIONS (JObj d2) = Ok (JObj d3) ∧
    updates_at RepChangeEventProp.OLD_REPUTATIONS d2 (JObj d3) ∧
    transform_relationships _transform_hashes _base64_to_hex (JObj d3)
      = Ok (JObj d4) ∧
    updates_at FileRepChangeEventProp.RELATIONSHIPS d3 (JObj d4) ∧
    transform_public_key _base64_to_hex (JObj d4) = Ok r ∧
    updates_at CertRepChangeEventProp.PUBLIC_KEY_SHA1 d4 r.
Proof.
  unfold normalize. intros Hn.
  apply bind_ok in Hn as (r1 & H1 & Hn).
  pose proof (transform_hashes_frame _ _ H1) as F1.
  destruct F1 as (d1 & -> & F1).
  apply bind_ok in Hn as (r2 & H2 & Hn).
  pose proof (unwrap_reputations_frame _ _ _ H2) as F2.
  destruct F2 as (d2 & -> & F2).
  apply bind_ok in Hn as (r3 & H3 & Hn).
  pose proof (unwrap_reputations_frame _ _ _ H3) as F3.
  destruct F3 as (d3 & -> & F3).
  apply bind_ok in Hn as (r4 & H4 & Hn).
  pose proof (transform_relationships_frame _ _ H4) as F4.
  destruct F4 as (d4 & -> & F4).
  pose proof (transform_public_key_frame _ _ Hn) as F5.
  exists d1, d2, d3, d4.
  repeat split; try done; eexists; eauto.
Qed.

End Steps.

(** The keys the callback looks at are pairwise distinct, and a key outside
    [recognized] is none of them. *)
Lemma not_recognized (k : string) :
  k ∉ recognized →
  k ≠ RepChangeEventProp.HASHES ∧
  k ≠ RepChangeEventProp.NEW_REPUTATIONS ∧
  k ≠ RepChangeEventProp.OLD_REPUTATIONS ∧
  k ≠ FileRepChangeEventProp.RELATIONSHIPS ∧
  k ≠ CertRepChangeEventProp.PUBLIC_KEY_SHA1.
Proof.
  unfold recognized. intros Hk.
  repeat split; intros ->; apply Hk; repeat constructor.
Qed.

(** What a successful [normalize] keeps: the keys, and the value under
    every key that no step changes. *)
Lemma normalize_frame
    (th tr b2h : json → result json) (d : gmap string json) (r : json) :
  normalize th tr b2h (JObj d) = Ok r →
  ∃ d', r = JObj d' ∧ dom d' = dom d ∧
        ∀ k, k ∉ recognized → d' !! k = d !! k.
Proof.
  intros Hn.
  apply normalize_ok in Hn
    as (d1 & d2 & d3 & d4 & _ & F1 & _ & F2 & _ & F3 & _ & F4 & _ & F5).
  destruct F1 as (? & [= <-] & D1 & L1), F2 as (? & [= <-] & D2 & L2),
    F3 as (? & [= <-] & D3 & L3), F4 as (? & [= <-] & D4 & L4),
    F5 as (d5 & -> & D5 & L5).
  exists d5. split; [done|]. split; [congruence|].
  intros k (N1 & N2 & N3 & N4 & N5)%not_recognized.
  rewrite L5, L4, L3, L2, L1; done.
Qed.

Section Handler.

Variable decode_utf8 : string → option string.
Variable json_loads : string → option json.
Variable _transform_hashes : json → result json.
Variable _transform_reputations : json → result json.
Variable _base64_to_hex : json → result json.
Context {S : Type}.
Variable on_reputation_change : json → Event → S → result () * S.

#[local] Abbreviation normalize' :=
  (normalize _transform_hashes _transform_reputations _base64_to_hex).
#[local] Abbreviation on_event' :=
  (on_event decode_utf8 json_loads _transform_hashes _transform_reputations
     _base64_to_hex on_reputation_change).

(** Once the payload is parsed, [on_event] is [normalize] followed by the
    call of the handler. *)
Lemma on_event_parsed (event : Event) (text : string) (v : json) (w : world S) :
  decode_utf8 (payload event) = Some text →
  json_loads text = Some v →
  on_event' event w =
  match normalize' v with
  | Ok r => invoke on_reputation_change r event w
  | Raise e => (Raise e, w)
  end.
Proof.
  intros Hd Hl. unfold on_event, M_bind, lift, decode, loads.
  rewrite Hd, Hl. by destruct (normalize' v).
Qed.

(** The handler is called at most once, after everything else, with the
    event that was received. *)
Lemma on_event_cases (event : Event) (w : world S) :
  stopped w (on_event' event w) ∨
  ∃ r, on_event' event w = invoke on_reputation_change r event w.
Proof.
  unfold on_event, M_bind, lift, decode, loads, stopped.
  destruct (decode_utf8 (payload event)) as [text|]; [|eauto].
  destruct (json_loads text) as [v|]; [|eauto].
  destruct (normalize' v); eauto.
Qed.

Lemma invoke_calls (r : json) (event : Event) (w : world S) :
  calls (invoke on_reputation_change r event w).2 = (calls w ++ [(r, event)])%list.
Proof.
  unfold invoke. by destruct (on_reputation_change r event (user w)).
Qed.

(** A dictionary without any of the recognized keys goes through
    [normalize] as it is, whatever the helpers do. *)
Lemma normalize_unrecognized (d : gmap string json) :
  (∀ k, k ∈ recognized → d !! k = None) →
  normalize' (JObj d) = Ok (JObj d).
Proof.
  intros Hd. unfold normalize.
  rewrite transform_hashes_obj, Hd by (unfold recognized; set_solver).
  simpl. rewrite unwrap_reputations_obj, Hd by (unfold recognized; set_solver).
  simpl. rewrite unwrap_reputations_obj, Hd by (unfold recognized; set_solver).
  simpl. rewrite transform_relationships_obj, Hd
    by (unfold recognized; set_solver).
  simpl. rewrite transform_public_key_obj, Hd
    by (unfold recognized; set_solver).
  done.
Qed.

(** C1.  When the payload parses as a JSON object that has none of the keys
    hashes, newReputations, oldReputations, relationships and publicKeySha1,
    [on_event] transforms nothing: [normalize] returns the parsed record as
    it is, whatever the helpers would do, and the handler is called, once,
    with that record and the event that was received. *)
Theorem on_event_unrecognized_identity
    (event : Event) (text : string) (d : gmap string json) (w : world S) :
  decode_utf8 (payload event) = Some text →
  json_loads text = Some (JObj d) →
  (∀ k, k ∈ recognized → d !! k = None) →
  normalize' (JObj d) = Ok (JObj d) ∧
  on_event' event w = invoke on_reputation_change (JObj d) event w ∧
  calls (on_event' event w).2 = (calls w ++ [(JObj d, event)])%list.
Proof.
  intros Hdec Hload Hd.
  pose proof (normalize_unrecognized d Hd) as Hn.
  assert (on_event' event w = invoke on_reputation_change (JObj d) event w)
    as Hrun by (by rewrite (on_event_parsed _ _ _ _ Hdec Hload), Hn).
  repeat split; [done..|]. rewrite Hrun. apply invoke_calls.
Qed.

(** C2, as amended.  When [payload.decode] rejects the bytes (they are not
    valid UTF-8) or [json.loads] rejects the decoded text with a ValueError,
    [on_event] ends with that decode error (UnicodeDecodeError in the first
    case, ValueError in the second) and the world is as before:
    [on_reputation_change] was not called.  The texts [json.loads] rejects
    are not all the texts outside the JSON grammar: it reads the literals
    NaN, Infinity and -Infinity, and a payload that uses them reaches the
    handler (shown at the end of the file). *)
Theorem on_event_decode_error (event : Event) (w : world S) :
  decode_utf8 (payload event) = None ∨
  (∃ text, decode_utf8 (payload event) = Some text ∧ json_loads text = None) →
  ∃ e, decode_error e ∧
       on_event' event w = (Raise e, w) ∧
       calls (on_event' event w).2 = calls w ∧
       (decode_utf8 (payload event) = None → e = UnicodeDecodeError) ∧
       (is_Some (decode_utf8 (payload event)) → e = ValueError).
Proof.
  unfold on_event, M_bind, lift, decode, loads, decode_error.
  intros [Hdec | (text & Hdec & Hload)].
  - exists UnicodeDecodeError. rewrite Hdec. simpl.
    repeat split; auto. by intros [? [=]].
  - exists ValueError. rewrite Hdec. simpl. rewrite Hload. simpl.
    repeat split; auto. discriminate.
Qed.

(** C8.  On every parsed record each transform is guarded by the presence
    of its key.  A step whose key is absent returns the record as it is,
    without an error; this holds for the five top-level steps, for a
    relationships object without a certificate, and for the two fields of
    the certificate.  When the handler is called, the record it receives
    has exactly the top-level keys of the parsed record. *)
Theorem on_event_keeps_keys
    (event : Event) (text : string) (d : gmap string json) (w : world S) :
  decode_utf8 (payload event) = Some text →
  json_loads text = Some (JObj d) →
  (stopped w (on_event' event w) ∨
   ∃ d', on_event' event w = invoke on_reputation_change (JObj d') event w ∧
         dom d' = dom d) ∧
  (d !! RepChangeEventProp.HASHES = None →
   transform_hashes _transform_hashes (JObj d) = Ok (JObj d)) ∧
  (d !! RepChangeEventProp.NEW_REPUTATIONS = None →
   unwrap_reputations _transform_reputations
     RepChangeEventProp.NEW_REPUTATIONS (JObj d) = Ok (JObj d)) ∧
  (d !! RepChangeEventProp.OLD_REPUTATIONS = None →
   unwrap_reputations _transform_reputations
     RepChangeEventProp.OLD_REPUTATIONS (JObj d) = Ok (JObj d)) ∧
  (d !! FileRepChangeEventProp.RELATIONSHIPS = None →
   transform_relationships _transform_hashes _base64_to_hex (JObj d)
     = Ok (JObj d)) ∧
  (d !! CertRepChangeEventProp.PUBLIC_KEY_SHA1 = None →
   transform_public_key _base64_to_hex (JObj d) = Ok (JObj d)) ∧
  (∀ rel : gmap string json,
     d !! FileRepChangeEventProp.RELATIONSHIPS = Some (JObj rel) →
     rel !! "certificate" = None →
     transform_relationships _transform_hashes _base64_to_hex (JObj d)
       = Ok (JObj d)) ∧
  (∀ cert : gmap string json,
     cert !! "hashes" = None →
     transform_cert_hashes _transform_hashes (JObj cert) = Ok (JObj cert)) ∧
  (∀ cert : gmap string json,
     cert !! "publicKeySha1" = None →
     transform_cert_public_key _base64_to_hex (JObj cert) = Ok (JObj cert)).
Proof.
  intros Hdec Hload. split.
  { rewrite (on_event_parsed _ _ _ _ Hdec Hload).
    destruct (normalize' (JObj d)) as [r|e] eqn:Hn.
    - right. apply normalize_frame in Hn as (d' & -> & Hdom & _). eauto.
    - left. by exists e. }
  repeat split.
  - intros Hk. by rewrite transform_hashes_obj, Hk.
  - intros Hk. by rewrite unwrap_reputations_obj, Hk.
  - intros Hk. by rewrite unwrap_reputations_obj, Hk.
  - intros Hk. by rewrite transform_relationships_obj, Hk.
  - intros Hk. by rewrite transform_public_key_obj, Hk.
  - intros rel Hrel Hk. rewrite transform_relationships_obj, Hrel.
    by rewrite (py_in_absent _ _ Hk).
  - intros cert Hk. by rewrite transform_cert_hashes_obj, Hk.
  - intros cert Hk. by rewrite transform_cert_public_key_obj, Hk.
Qed.

(** C10.  For a parsed record and a top-level key other than hashes,
    newReputations, oldReputations, relationships and publicKeySha1 (so for
    updateTime, and for any key the callback does not know), the handler,
    when it is called, finds under that key what parsing the payload put
    there; a key that is absent stays absent. *)
Theorem on_event_other_keys
    (event : Event) (text : string) (d : gmap string json) (w : world S)
    (k : string) :
  decode_utf8 (payload event) = Some text →
  json_loads text = Some (JObj d) →
  k ∉ recognized →
  stopped w (on_event' event w) ∨
  ∃ d', on_event' event w = invoke on_reputation_change (JObj d') event w ∧
        d' !! k = d !! k.
Proof.
  intros Hdec Hload Hk.
  rewrite (on_event_parsed _ _ _ _ Hdec Hload).
  destruct (normalize' (JObj d)) as [r|e] eqn:Hn.
  - right. apply normalize_frame in Hn as (d' & -> & _ & Hframe). eauto.
  - left. by exists e.
Qed.

(** C4.  When the value under newReputations (or oldReputations, or any
    key the step is run for) is a mapping without the key reputations, the
    unwrap step returns the record as it is, without an error; so running
    the step a second time gives what running it once gives. *)
Theorem unwrap_reputations_unwrapped
    (key : string) (d m : gmap string json) :
  d !! key = Some (JObj m) →
  m !! "reputations" = None →
  unwrap_reputations _transform_reputations key (JObj d) = Ok (JObj d) ∧
  (unwrap_reputations _transform_reputations key (JObj d)
     ≫= unwrap_reputations _transform_reputations key)
  = unwrap_reputations _transform_reputations key (JObj d).
Proof.
  intros Hkey Hm.
  assert (unwrap_reputations _transform_reputations key (JObj d)
          = Ok (JObj d)) as Hone.
  { by rewrite unwrap_reputations_obj, Hkey, (py_in_absent _ _ Hm). }
  split; [done|]. rewrite Hone. simpl. by rewrite Hone.
Qed.

(** The two assignments to the certificate dictionary. *)
Lemma transform_cert_ok (cert : gmap string json) (r : json) :
  (transform_cert_hashes _transform_hashes (JObj cert)
     ≫= transform_cert_public_key _base64_to_hex) = Ok r ↔
  ∃ cert', r = JObj cert' ∧
           certificate_transformed _transform_hashes _base64_to_hex cert cert'.
Proof.
  unfold certificate_transformed, transformed_by.
  rewrite transform_cert_hashes_obj. split.
  - intros Hr.
    destruct (cert !! "hashes") as [h|] eqn:Hh.
    + apply bind_ok in Hr as (c1 & Hc1 & Hr).
      apply bind_ok in Hc1 as (h' & Hh' & Hc1). injection Hc1 as <-.
      rewrite transform_cert_public_key_obj in Hr.
      rewrite lookup_insert_ne in Hr by done.
      destruct (cert !! "publicKeySha1") as [p|] eqn:Hp.
      * apply bind_ok in Hr as (p' & Hp' & Hr). injection Hr as <-.
        eexists. split; [done|]. repeat split.
        -- exists h'. split; [done|].
           by rewrite lookup_insert_ne, lookup_insert_eq.
        -- exists p'. split; [done|]. by rewrite lookup_insert_eq.
        -- intros k K1 K2. by rewrite !lookup_insert_ne.
      * injection Hr as <-. eexists. split; [done|]. repeat split.
        -- exists h'. split; [done|]. by rewrite lookup_insert_eq.
        -- by rewrite lookup_insert_ne.
        -- intros k K1 K2. by rewrite !lookup_insert_ne.
    + simpl in Hr. rewrite transform_cert_public_key_obj in Hr.
      destruct (cert !! "publicKeySha1") as [p|] eqn:Hp.
      * apply bind_ok in Hr as (p' & Hp' & Hr). injection Hr as <-.
        eexists. split; [done|]. repeat split.
        -- by rewrite lookup_insert_ne.
        -- exists p'. split; [done|]. by rewrite lookup_insert_eq.
        -- intros k K1 K2. by rewrite !lookup_insert_ne.
      * injection Hr as <-. by exists cert.
  - intros (cert' & -> & Hh' & Hp' & Hother).
    destruct (cert !! "hashes") as [h|] eqn:Hh.
    + destruct Hh' as (h' & -> & Hh'). simpl.
      rewrite transform_cert_public_key_obj.
      rewrite lookup_insert_ne by done.
      destruct (cert !! "publicKeySha1") as [p|] eqn:Hp.
      * destruct Hp' as (p' & -> & Hp'). simpl. do 2 f_equal.
        apply map_eq. intros k.
        destruct (decide (k = "publicKeySha1")) as [->|K2].
        { by rewrite lookup_insert_eq. }
        rewrite lookup_insert_ne by done.
        destruct (decide (k = "hashes")) as [->|K1].
        { by rewrite lookup_insert_eq. }
        rewrite lookup_insert_ne by done. symmetry. by apply Hother.
      * do 2 f_equal. apply map_eq. intros k.
        destruct (decide (k = "hashes")) as [->|K1].
        { by rewrite lookup_insert_eq. }
        rewrite lookup_insert_ne by done.
        destruct (decide (k = "publicKeySha1")) as [->|K2]; [congruence|].
        symmetry. by apply Hother.
    + simpl. rewrite transform_cert_public_key_obj.
      destruct (cert !! "publicKeySha1") as [p|] eqn:Hp.
      * destruct Hp' as (p' & -> & Hp'). simpl. do 2 f_equal.
        apply map_eq. intros k.
        destruct (decide (k = "publicKeySha1")) as [->|K2].
        { by rewrite lookup_insert_eq. }
        rewrite lookup_insert_ne by done.
        destruct (decide (k = "hashes")) as [->|K1]; [congruence|].
        symmetry. by apply Hother.
      * do 2 f_equal. apply map_eq. intros k.
        destruct (decide (k = "hashes")) as [->|K1]; [congruence|].
        destruct (decide (k = "publicKeySha1")) as [->|K2]; [congruence|].
        symmetry. by apply Hother.
Qed.

(** The relationships step on a record that has a certificate. *)
Lemma transform_relationships_certificate
    (d rel cert : gmap string json) (r : json) :
  d !! FileRepChangeEventProp.RELATIONSHIPS = Some (JObj rel) →
  rel !! "certificate" = Some (JObj cert) →
  transform_relationships _transform_hashes _base64_to_hex (JObj d) = Ok r ↔
  ∃ cert',
    certificate_transformed _transform_hashes _base64_to_hex cert cert' ∧
    r = JObj (<[FileRepChangeEventProp.RELATIONSHIPS :=
                  JObj (<["certificate" := JObj cert']> rel)]> d).
Proof.
  intros Hrel Hcert.
  rewrite transform_relationships_obj, Hrel, (py_in_present _ _ _ Hcert).
  simpl. rewrite Hcert. simpl.
  pose proof (transform_cert_ok cert) as Hc.
  destruct (transform_cert_hashes _transform_hashes (JObj cert))
    as [c1|e] eqn:H1; simpl in Hc; rewrite ?H1; simpl.
  - destruct (transform_cert_public_key _base64_to_hex c1)
      as [c2|e] eqn:H2; rewrite ?H2; simpl.
    + destruct (proj1 (Hc c2) eq_refl) as (cert' & -> & Hprops). simpl. split.
      * intros [= <-]. eauto.
      * intros (cert'' & Hprops' & ->). do 4 f_equal.
        assert (Ok (JObj cert') = Ok (JObj cert'')) as [= ->]; [|done].
        apply Hc. eauto.
    + split; [discriminate|]. intros (cert' & Hprops & _).
      assert (@Raise json e = Ok (JObj cert')) as [=]. apply Hc. eauto.
  - split; [discriminate|]. intros (cert' & Hprops & _).
    assert (@Raise json e = Ok (JObj cert')) as [=]. apply Hc. eauto.
Qed.


(** C5.  For a record whose relationships object holds a certificate
    object: the relationships step succeeds exactly when the helpers
    succeed on the fields that are present, and then the record differs
    only in the certificate, whose hashes field (if present) holds the
    result of the hash transform, whose publicKeySha1 field (if present)
    holds the result of the base64-to-hex transform, and whose other
    fields are as before; the other fields of the relationships object are
    as before too.  The handler, when it is called, finds the relationships
    object in that state. *)
Theorem on_event_certificate_in_place
    (event : Event) (text : string) (d rel cert : gmap string json)
    (w : world S) :
  decode_utf8 (payload event) = Some text →
  json_loads text = Some (JObj d) →
  d !! FileRepChangeEventProp.RELATIONSHIPS = Some (JObj rel) →
  rel !! "certificate" = Some (JObj cert) →
  (∀ r, transform_relationships _transform_hashes _base64_to_hex (JObj d)
          = Ok r ↔
        ∃ cert',
          certificate_transformed _transform_hashes _base64_to_hex
            cert cert' ∧
          r = JObj (<[FileRepChangeEventProp.RELATIONSHIPS :=
                        JObj (<["certificate" := JObj cert']> rel)]> d)) ∧
  (stopped w (on_event' event w) ∨
   ∃ d' cert',
     on_event' event w = invoke on_reputation_change (JObj d') event w ∧
     d' !! FileRepChangeEventProp.RELATIONSHIPS
       = Some (JObj (<["certificate" := JObj cert']> rel)) ∧
     certificate_transformed _transform_hashes _base64_to_hex cert cert').
Proof.
  intros Hdec Hload Hrel Hcert. split.
  { intros r. by apply transform_relationships_certificate. }
  rewrite (on_event_parsed _ _ _ _ Hdec Hload).
  destruct (normalize' (JObj d)) as [r|e] eqn:Hn; [right | left; by exists e].
  apply normalize_ok in Hn
    as (d1 & d2 & d3 & d4 & _ & F1 & _ & F2 & _ & F3 & H4 & _ & _ & F5).
  destruct F1 as (? & [= <-] & _ & L1), F2 as (? & [= <-] & _ & L2),
    F3 as (? & [= <-] & _ & L3), F5 as (d5 & -> & _ & L5).
  assert (d3 !! FileRepChangeEventProp.RELATIONSHIPS = Some (JObj rel))
    as Hrel3 by (by rewrite L3, L2, L1).
  apply (transform_relationships_certificate _ _ _ _ Hrel3 Hcert) in H4
    as (cert' & Hprops & [= ->]).
  exists d5, cert'. split; [done|]. split; [|done].
  rewrite L5 by done. apply lookup_insert_eq.
Qed.

End Handler.

(** C7.  [on_reputation_change] of the base class raises
    NotImplementedError on every record, event and state; a callback that
    does not override it never returns normally from [on_event]. *)
Theorem base_on_reputation_change_raises :
  (∀ (S : Type) (rep_change_dict : json) (original_event : Event) (s : S),
     base_on_reputation_change rep_change_dict original_event s
     = (Raise (NotImplementedError "Must be implemented in a child class."),
        s)) ∧
  (∀ (decode_utf8 : string → option string)
     (json_loads : string → option json)
     (th tr b2h : json → result json)
     (S : Type) (event : Event) (w : world S),
     raises (on_event decode_utf8 json_loads th tr b2h
               base_on_reputation_change event w).1).
Proof.
  split; [done|]. intros.
  destruct (on_event_cases decode_utf8 json_loads th tr b2h
              base_on_reputation_change event w) as [[e ->] | [r ->]];
    eexists; reflexivity.
Qed.

(** C9.  [on_event] reads nothing but its argument: two runs on events with
    equal payload bytes, in any two worlds and with any two handlers, either
    both end with the same exception before the handler is called, or both
    call their handler with the same record. *)
Theorem on_event_deterministic
    (decode_utf8 : string → option string)
    (json_loads : string → option json)
    (th tr b2h : json → result json)
    (S1 S2 : Type)
    (h1 : json → Event → S1 → result () * S1)
    (h2 : json → Event → S2 → result () * S2)
    (e1 e2 : Event) (w1 : world S1) (w2 : world S2) :
  payload e1 = payload e2 →
  (∃ e, on_event decode_utf8 json_loads th tr b2h h1 e1 w1 = (Raise e, w1) ∧
        on_event decode_utf8 json_loads th tr b2h h2 e2 w2 = (Raise e, w2)) ∨
  (∃ r, on_event decode_utf8 json_loads th tr b2h h1 e1 w1
          = invoke h1 r e1 w1 ∧
        on_event decode_utf8 json_loads th tr b2h h2 e2 w2
          = invoke h2 r e2 w2).
Proof.
  intros Hp. unfold on_event, M_bind, lift, decode, loads. rewrite <- Hp.
  destruct (decode_utf8 (payload e1)) as [text|]; [|left; eauto].
  destruct (json_loads text) as [v|]; [|left; eauto].
  destruct (normalize th tr b2h v); [right | left]; eauto.
Qed.

(** ** Base64 and hexadecimal *)

Module TieClientFacts.
Import TieClient.

#[local] Open Scope N_scope.

(** Division and remainder by a constant, for [lia]. *)
Ltac Zify.zify_post_hook ::= Z.to_euclidean_division_equations.

(** A position found by [position] holds the character looked for. *)
Lemma position_char_at (c : ascii) (s : string) (n : N) :
  position c s = Some n →
  char_at s n = c ∧ n < N.of_nat (String.length s).
Proof.
  revert n. induction s as [|a s IH]; intros n; simpl; [discriminate|].
  destruct (decide (a = c)) as [->|Hne].
  - intros [= <-]. split; [done | lia].
  - destruct (position c s) as [m|]; [|discriminate].
    intros [= <-]. destruct (IH m eq_refl) as [Hc Hm]. split; [|lia].
    unfold char_at in *. rewrite N2Nat.inj_succ. done.
Qed.

Lemma b64_value_char (c : ascii) (v : N) :
  b64_value c = Some v → b64_char v = c ∧ v < 64.
Proof. intros Hv. by apply position_char_at in Hv. Qed.

(** The alphabet has no repeated character. *)
Lemma b64_char_value (v : N) : v < 64 → b64_value (b64_char v) = Some v.
Proof.
  intros Hv. rewrite <- (N2Nat.id v).
  assert (N.to_nat v < 64)%nat as Hn by lia.
  generalize dependent (N.to_nat v). clear v Hv. intros n Hn.
  do 64 (destruct n as [|n]; [reflexivity|]). lia.
Qed.

Lemma b64_char_not_pad (v : N) : v < 64 → b64_char v ≠ b64_pad.
Proof.
  intros Hv Hpad. apply b64_char_value in Hv. rewrite Hpad in Hv.
  discriminate.
Qed.

Lemma b64encode_nonempty (a : ascii) (x : string) :
  ∃ c s, b64encode (String a x) = String c s.
Proof. destruct x as [|b [|c x]]; simpl; eauto. Qed.

#[local] Arguments N.div : simpl never.
#[local] Arguments N.modulo : simpl never.
#[local] Arguments N.mul : simpl never.
#[local] Arguments N.add : simpl never.
#[local] Arguments N_of_ascii : simpl never.
#[local] Arguments ascii_of_N : simpl never.
#[local] Arguments b64_char : simpl never.
#[local] Arguments b64_value : simpl never.

(** The sextets of one, two and three bytes, and the bytes they give
    back. *)
Lemma sextets_1 (A : N) :
  A < 256 →
  A / 4 < 64 ∧ A mod 4 * 16 < 64 ∧ (A mod 4 * 16) mod 16 = 0 ∧
  A / 4 * 4 + A mod 4 * 16 / 16 = A.
Proof. intros. repeat split; lia. Qed.

Lemma sextets_2 (A B : N) :
  A < 256 → B < 256 →
  A / 4 < 64 ∧ A mod 4 * 16 + B / 16 < 64 ∧ B mod 16 * 4 < 64 ∧
  (B mod 16 * 4) mod 4 = 0 ∧
  A / 4 * 4 + (A mod 4 * 16 + B / 16) / 16 = A ∧
  (A mod 4 * 16 + B / 16) mod 16 * 16 + B mod 16 * 4 / 4 = B.
Proof. intros. repeat split; lia. Qed.

Lemma sextets_3 (A B C : N) :
  A < 256 → B < 256 → C < 256 →
  A / 4 < 64 ∧ A mod 4 * 16 + B / 16 < 64 ∧
  B mod 16 * 4 + C / 64 < 64 ∧ C mod 64 < 64 ∧
  A / 4 * 4 + (A mod 4 * 16 + B / 16) / 16 = A ∧
  (A mod 4 * 16 + B / 16) mod 16 * 16 + (B mod 16 * 4 + C / 64) / 4 = B ∧
  (B mod 16 * 4 + C / 64) mod 4 * 64 + C mod 64 = C.
Proof. intros. repeat split; lia. Qed.

(** A group of four characters that is not the last one. *)
Lemma b64decode_group (c1 c2 c3 c4 c : ascii) (s : string) :
  b64decode (String c1 (String c2 (String c3 (String c4 (String c s))))) =
  (v1 ← b64_value c1;
   v2 ← b64_value c2;
   v3 ← b64_value c3;
   v4 ← b64_value c4;
   tail ← b64decode (String c s);
   Some (String (ascii_of_N (v1 * 4 + v2 / 16))
     (String (ascii_of_N (v2 mod 16 * 16 + v3 / 4))
       (String (ascii_of_N (v3 mod 4 * 64 + v4)) tail)))).
Proof. reflexivity. Qed.

(** Decoding undoes encoding. *)
Ltac b64_step :=
  first [ rewrite b64_char_value by done
        | rewrite decide_False by (by apply b64_char_not_pad)
        | rewrite decide_True by done ];
  simpl.

Lemma b64decode_encode (x : string) : b64decode (b64encode x) = Some x.
Proof.
  enough (b64decode (b64encode x) = Some x ∧
          (∀ a, b64decode (b64encode (String a x)) = Some (String a x)) ∧
          (∀ a b, b64decode (b64encode (String a (String b x)))
                  = Some (String a (String b x)))) as [H _] by exact H.
  induction x as [|c x (IH0 & IH1 & IH2)].
  - split; [done|]. split.
    + intros a.
      destruct (sextets_1 _ (N_ascii_bounded a)) as (S1 & S2 & Z & E1).
      simpl. unfold b64decode_last. repeat b64_step.
      by rewrite E1, ascii_N_embedding.
    + intros a b.
      destruct (sextets_2 _ _ (N_ascii_bounded a) (N_ascii_bounded b))
        as (S1 & S2 & S3 & Z & E1 & E2).
      simpl. unfold b64decode_last. repeat b64_step.
      by rewrite E1, E2, !ascii_N_embedding.
  - split; [apply IH1|]. split; [intros a; apply IH2|].
    intros a b.
    destruct (sextets_3 _ _ _ (N_ascii_bounded a) (N_ascii_bounded b)
                (N_ascii_bounded c))
      as (S1 & S2 & S3 & S4 & E1 & E2 & E3).
    change (b64encode (String a (String b (String c x)))) with
      (String (b64_char (N_of_ascii a / 4))
         (String (b64_char (N_of_ascii a mod 4 * 16 + N_of_ascii b / 16))
            (String (b64_char (N_of_ascii b mod 16 * 4 + N_of_ascii c / 64))
               (String (b64_char (N_of_ascii c mod 64)) (b64encode x))))).
    destruct x as [|a' x'].
    + simpl. unfold b64decode_last. repeat b64_step.
      by rewrite E1, E2, E3, !ascii_N_embedding.
    + destruct (b64encode_nonempty a' x') as (c1 & s1 & Henc).
      rewrite Henc, b64decode_group, <- Henc, IH0. repeat b64_step.
      by rewrite E1, E2, E3, !ascii_N_embedding.
Qed.

(** The bytes of two, three and four sextets, and the sextets they give
    back. *)
Lemma bytes_1 (v1 v2 : N) :
  v1 < 64 → v2 < 64 → v2 mod 16 = 0 →
  v1 * 4 + v2 / 16 < 256 ∧
  (v1 * 4 + v2 / 16) / 4 = v1 ∧ (v1 * 4 + v2 / 16) mod 4 * 16 = v2.
Proof. intros. repeat split; lia. Qed.

Lemma bytes_2 (v1 v2 v3 : N) :
  v1 < 64 → v2 < 64 → v3 < 64 → v3 mod 4 = 0 →
  v1 * 4 + v2 / 16 < 256 ∧ v2 mod 16 * 16 + v3 / 4 < 256 ∧
  (v1 * 4 + v2 / 16) / 4 = v1 ∧
  (v1 * 4 + v2 / 16) mod 4 * 16 + (v2 mod 16 * 16 + v3 / 4) / 16 = v2 ∧
  (v2 mod 16 * 16 + v3 / 4) mod 16 * 4 = v3.
Proof. intros. repeat split; lia. Qed.

Lemma bytes_3 (v1 v2 v3 v4 : N) :
  v1 < 64 → v2 < 64 → v3 < 64 → v4 < 64 →
  v1 * 4 + v2 / 16 < 256 ∧ v2 mod 16 * 16 + v3 / 4 < 256 ∧
  v3 mod 4 * 64 + v4 < 256 ∧
  (v1 * 4 + v2 / 16) / 4 = v1 ∧
  (v1 * 4 + v2 / 16) mod 4 * 16 + (v2 mod 16 * 16 + v3 / 4) / 16 = v2 ∧
  (v2 mod 16 * 16 + v3 / 4) mod 16 * 4 + (v3 mod 4 * 64 + v4) / 64 = v3 ∧
  (v3 mod 4 * 64 + v4) mod 64 = v4.
Proof. intros. repeat split; lia. Qed.

(** Only encodings are decoded. *)
Lemma b64encode_decode (s x : string) :
  b64decode s = Some x → b64encode x = s.
Proof.
  remember (String.length s) as n eqn:Hn. revert s x Hn.
  induction n as [n IH] using lt_wf_ind. intros s x Hn.
  destruct s as [|c1 [|c2 [|c3 [|c4 rest]]]]; try discriminate.
  { by intros [= <-]. }
  destruct rest as [|c s'].
  - simpl. unfold b64decode_last.
    destruct (b64_value c1) as [v1|] eqn:V1; [|discriminate].
    destruct (b64_value c2) as [v2|] eqn:V2; [|discriminate].
    apply b64_value_char in V1 as [<- L1], V2 as [<- L2]. simpl.
    destruct (decide (c4 = b64_pad)) as [->|P4].
    + destruct (decide (c3 = b64_pad)) as [->|P3].
      * destruct (decide (v2 mod 16 = 0)) as [Z|]; [|discriminate].
        intros [= <-].
        destruct (bytes_1 v1 v2) as (B1 & E1 & E2); [done..|].
        simpl. by rewrite N_ascii_embedding, E1, E2.
      * destruct (b64_value c3) as [v3|] eqn:V3; [|discriminate].
        apply b64_value_char in V3 as [<- L3]. simpl.
        destruct (decide (v3 mod 4 = 0)) as [Z|]; [|discriminate].
        intros [= <-].
        destruct (bytes_2 v1 v2 v3) as (B1 & B2 & E1 & E2 & E3); [done..|].
        simpl. by rewrite !N_ascii_embedding, E1, E2, E3.
    + destruct (b64_value c3) as [v3|] eqn:V3; [|discriminate].
      destruct (b64_value c4) as [v4|] eqn:V4; [|discriminate].
      apply b64_value_char in V3 as [<- L3], V4 as [<- L4]. simpl.
      intros [= <-].
      destruct (bytes_3 v1 v2 v3 v4)
        as (B1 & B2 & B3 & E1 & E2 & E3 & E4); [done..|].
      simpl. by rewrite !N_ascii_embedding, E1, E2, E3, E4.
  - rewrite b64decode_group.
    destruct (b64_value c1) as [v1|] eqn:V1; [|discriminate].
    destruct (b64_value c2) as [v2|] eqn:V2; [|discriminate].
    destruct (b64_value c3) as [v3|] eqn:V3; [|discriminate].
    destruct (b64_value c4) as [v4|] eqn:V4; [|discriminate].
    apply b64_value_char in V1 as [<- L1], V2 as [<- L2],
      V3 as [<- L3], V4 as [<- L4].
    destruct (b64decode (String c s')) as [tail|] eqn:Htail; [|discriminate].
    simpl. intros [= <-].
    destruct (bytes_3 v1 v2 v3 v4)
      as (B1 & B2 & B3 & E1 & E2 & E3 & E4); [done..|].
    apply (IH (String.length (String c s'))) in Htail;
      [|subst n; simpl; lia | done].
    simpl. by rewrite !N_ascii_embedding, E1, E2, E3, E4, Htail.
Qed.

(** The base64 strings are the encodings, and the transform fails exactly
    outside them. *)
Lemma base64_to_hex_valid (bytes : string) :
  _base64_to_hex (JStr (b64encode bytes)) = Ok (JStr (hexlify bytes)).
Proof. unfold _base64_to_hex. by rewrite b64decode_encode. Qed.

Lemma base64_to_hex_invalid (s : string) :
  (∀ bytes, s ≠ b64encode bytes) →
  _base64_to_hex (JStr s) = Raise TransformError.
Proof.
  intros Hs. unfold _base64_to_hex.
  destruct (b64decode s) as [bytes|] eqn:Hd; [|done].
  apply b64encode_decode in Hd. by destruct (Hs bytes).
Qed.

End TieClientFacts.

(** ** The transforms of the specification in the callback *)

Section SpecifiedHelpers.

Variable decode_utf8 : string → option string.
Variable json_loads : string → option json.
Variable _transform_hashes : json → result json.
Variable _transform_reputations : json → result json.
Variable _base64_to_hex : json → result json.
Context {S : Type}.
Variable on_reputation_change : json → Event → S → result () * S.

(** The unwrap step on a wrapped value. *)
Lemma unwrap_reputations_wrapped (key : string) (d m : gmap string json)
    (v : json) :
  d !! key = Some (JObj m) →
  m !! "reputations" = Some v →
  unwrap_reputations TieClient._transform_reputations key (JObj d)
  = Ok (JObj (<[key := v]> d)).
Proof.
  intros Hkey Hm.
  rewrite unwrap_reputations_obj, Hkey, (py_in_present _ _ _ Hm).
  simpl. by rewrite Hm.
Qed.

(** C3.  For a parsed record whose newReputations (or oldReputations) value
    is an object with a key reputations: the unwrap step puts the value
    found under reputations, as it is, in the place of the top-level value
    and changes nothing else; the handler, when it is called, finds exactly
    that value under the key.  The record made of newReputations over
    reputations over one entry under 1 comes out as newReputations over
    that entry. *)
Theorem on_event_unwraps_reputations
    (event : Event) (text : string) (key : string) (d m : gmap string json)
    (v : json) (w : world S) :
  decode_utf8 (payload event) = Some text →
  json_loads text = Some (JObj d) →
  key = RepChangeEventProp.NEW_REPUTATIONS ∨
  key = RepChangeEventProp.OLD_REPUTATIONS →
  d !! key = Some (JObj m) →
  m !! "reputations" = Some v →
  unwrap_reputations TieClient._transform_reputations key (JObj d)
    = Ok (JObj (<[key := v]> d)) ∧
  (stopped w
     (on_event decode_utf8 json_loads _transform_hashes
        TieClient._transform_reputations _base64_to_hex
        on_reputation_change event w) ∨
   ∃ d',
     on_event decode_utf8 json_loads _transform_hashes
       TieClient._transform_reputations _base64_to_hex
       on_reputation_change event w
     = invoke on_reputation_change (JObj d') event w ∧
     d' !! key = Some v) ∧
  (∀ R : json,
     normalize _transform_hashes TieClient._transform_reputations
       _base64_to_hex
       (JObj {[ "newReputations" :=
                  JObj {[ "reputations" := JObj {[ "1" := R ]} ]} ]})
     = Ok (JObj {[ "newReputations" := JObj {[ "1" := R ]} ]})).
Proof.
  intros Hdec Hload Hkey Hd Hm. split; [|split].
  - by apply unwrap_reputations_wrapped with m.
  - rewrite (on_event_parsed _ _ _ _ _ _ _ _ _ _ Hdec Hload).
    destruct (normalize _ _ _ (JObj d)) as [r|e] eqn:Hn;
      [right | left; by exists e].
    apply normalize_ok in Hn
      as (d1 & d2 & d3 & d4 & _ & F1 & H2 & F2 & H3 & F3 & _ & F4 & _ & F5).
    destruct F1 as (? & [= <-] & _ & L1), F2 as (? & [= <-] & _ & L2),
      F3 as (? & [= <-] & _ & L3), F4 as (? & [= <-] & _ & L4),
      F5 as (d5 & -> & _ & L5).
    exists d5. split; [done|].
    destruct Hkey as [-> | ->].
    + rewrite (unwrap_reputations_wrapped _ d1 m v) in H2
        by (by rewrite ?L1).
      injection H2 as <-.
      rewrite L5, L4, L3 by done. apply lookup_insert_eq.
    + rewrite (unwrap_reputations_wrapped _ d2 m v) in H3
        by (by rewrite ?L2, ?L1).
      injection H3 as <-.
      rewrite L5, L4 by done. apply lookup_insert_eq.
  - intros R. unfold normalize.
    rewrite transform_hashes_obj, lookup_singleton_ne by done. simpl.
    rewrite (unwrap_reputations_wrapped _ _ {[ "reputations" := _ ]}
               (JObj {[ "1" := R ]}))
      by apply lookup_singleton_eq.
    simpl. rewrite insert_singleton_eq.
    rewrite unwrap_reputations_obj, lookup_singleton_ne by done. simpl.
    rewrite transform_relationships_obj, lookup_singleton_ne by done. simpl.
    by rewrite transform_public_key_obj, lookup_singleton_ne.
Qed.

(** C6.  For a parsed record with a string under the top-level key
    publicKeySha1.  If the string is the base64 encoding of some bytes, the
    last step puts the lowercase hexadecimal form of those bytes in its
    place, and the handler, when it is called, finds that form under the
    key.  If the string is the base64 encoding of no bytes, the last step
    raises the transform error, and [on_event] ends with an exception
    without calling the handler.  The record with AAEC under publicKeySha1
    comes out with 000102 under it. *)
Theorem on_event_public_key_hex
    (event : Event) (text : string) (d : gmap string json) (s : string)
    (w : world S) :
  decode_utf8 (payload event) = Some text →
  json_loads text = Some (JObj d) →
  d !! CertRepChangeEventProp.PUBLIC_KEY_SHA1 = Some (JStr s) →
  (∀ bytes, s = TieClient.b64encode bytes →
     transform_public_key TieClient._base64_to_hex (JObj d)
       = Ok (JObj (<[CertRepChangeEventProp.PUBLIC_KEY_SHA1 :=
                       JStr (TieClient.hexlify bytes)]> d)) ∧
     (stopped w
        (on_event decode_utf8 json_loads _transform_hashes
           _transform_reputations TieClient._base64_to_hex
           on_reputation_change event w) ∨
      ∃ d',
        on_event decode_utf8 json_loads _transform_hashes
          _transform_reputations TieClient._base64_to_hex
          on_reputation_change event w
        = invoke on_reputation_change (JObj d') event w ∧
        d' !! CertRepChangeEventProp.PUBLIC_KEY_SHA1
          = Some (JStr (TieClient.hexlify bytes)))) ∧
  ((∀ bytes, s ≠ TieClient.b64encode bytes) →
     transform_public_key TieClient._base64_to_hex (JObj d)
       = Raise TransformError ∧
     stopped w
       (on_event decode_utf8 json_loads _transform_hashes
          _transform_reputations TieClient._base64_to_hex
          on_reputation_change event w)) ∧
  normalize _transform_hashes _transform_reputations TieClient._base64_to_hex
    (JObj {[ "publicKeySha1" := JStr "AAEC" ]})
  = Ok (JObj {[ "publicKeySha1" := JStr "000102" ]}).
Proof.
  intros Hdec Hload Hd.
  rewrite (on_event_parsed _ _ _ _ _ _ _ _ _ _ Hdec Hload).
  split; [|split].
  - intros bytes ->. split.
    + rewrite transform_public_key_obj, Hd.
      by rewrite TieClientFacts.base64_to_hex_valid.
    + destruct (normalize _ _ _ (JObj d)) as [r|e] eqn:Hn;
        [right | left; by exists e].
      apply normalize_ok in Hn
        as (d1 & d2 & d3 & d4 & _ & F1 & _ & F2 & _ & F3 & _ & F4 & H5 & _).
      destruct F1 as (? & [= <-] & _ & L1), F2 as (? & [= <-] & _ & L2),
        F3 as (? & [= <-] & _ & L3), F4 as (? & [= <-] & _ & L4).
      rewrite transform_public_key_obj, L4, L3, L2, L1, Hd in H5 by done.
      rewrite TieClientFacts.base64_to_hex_valid in H5.
      injection H5 as <-. eexists. split; [done|]. apply lookup_insert_eq.
  - intros Hs. split.
    + rewrite transform_public_key_obj, Hd.
      by rewrite TieClientFacts.base64_to_hex_invalid.
    + destruct (normalize _ _ _ (JObj d)) as [r|e] eqn:Hn; [|by exists e].
      apply normalize_ok in Hn
        as (d1 & d2 & d3 & d4 & _ & F1 & _ & F2 & _ & F3 & _ & F4 & H5 & _).
      destruct F1 as (? & [= <-] & _ & L1), F2 as (? & [= <-] & _ & L2),
        F3 as (? & [= <-] & _ & L3), F4 as (? & [= <-] & _ & L4).
      rewrite transform_public_key_obj, L4, L3, L2, L1, Hd in H5 by done.
      by rewrite TieClientFacts.base64_to_hex_invalid in H5.
  - unfold normalize.
    rewrite transform_hashes_obj, lookup_singleton_ne by done. simpl.
    rewrite unwrap_reputations_obj, lookup_singleton_ne by done. simpl.
    rewrite unwrap_reputations_obj, lookup_singleton_ne by done. simpl.
    rewrite transform_relationships_obj, lookup_singleton_ne by done. simpl.
    rewrite transform_public_key_obj.
    change CertRepChangeEventProp.PUBLIC_KEY_SHA1 with "publicKeySha1".
    rewrite lookup_singleton_eq.
    change (TieClient._base64_to_hex (JStr "AAEC")) with (Ok (JStr "000102")).
    simpl. by rewrite insert_singleton_eq.
Qed.

End SpecifiedHelpers.

(** ** The statements at the sample events *)

Module Witnesses.
Import Samples.

Lemma recognized_absent_time_record (k : string) :
  k ∈ recognized → time_record !! k = None.
Proof.
  unfold recognized. intros Hk.
  repeat (apply elem_of_cons in Hk as [->|Hk]; [reflexivity|]).
  by apply elem_of_nil in Hk.
Defined.

Lemma update_time_not_recognized : "updateTime" ∉ recognized.
Proof.
  unfold recognized. intros Hk.
  repeat (apply elem_of_cons in Hk as [Hk|Hk]; [discriminate|]).
  by apply elem_of_nil in Hk.
Defined.

Lemma AAE_not_base64 (bytes : string) : "AAE" ≠ TieClient.b64encode bytes.
Proof.
  intros Henc.
  pose proof (TieClientFacts.b64decode_encode bytes) as Hdec.
  rewrite <- Henc in Hdec. discriminate.
Defined.

(** The record with the change time only reaches the handler as parsed. *)
Lemma on_event_unrecognized_identity_witness :
  MyReputationChangeCallback.normalize (JObj time_record)
    = Ok (JObj time_record) ∧
  MyReputationChangeCallback.on_event (file_event time_payload) start
    = (Ok (), World [JObj time_record]
                [(JObj time_record, file_event time_payload)]).
Proof.
  destruct (on_event_unrecognized_identity
              PyLib.decode_utf8 PyLib.json_loads
              (TieClient._transform_hashes TieClient.unhexlify)
              TieClient._transform_reputations TieClient._base64_to_hex
              MyReputationChangeCallback.on_reputation_change
              (file_event time_payload) time_payload time_record start)
    as (Hn & Hrun & _).
  - reflexivity.
  - reflexivity.
  - exact recognized_absent_time_record.
  - split; [exact Hn|]. unfold MyReputationChangeCallback.on_event.
    rewrite Hrun. reflexivity.
Defined.

(** Bytes that are not UTF-8 and text that is not JSON end in the two
    decode errors, with nothing printed. *)
Lemma on_event_decode_error_witness :
  MyReputationChangeCallback.on_event (file_event not_utf8) start
    = (Raise UnicodeDecodeError, start) ∧
  MyReputationChangeCallback.on_event (file_event not_json) start
    = (Raise ValueError, start).
Proof.
  split.
  - destruct (on_event_decode_error
                PyLib.decode_utf8 PyLib.json_loads
                (TieClient._transform_hashes TieClient.unhexlify)
                TieClient._transform_reputations TieClient._base64_to_hex
                MyReputationChangeCallback.on_reputation_change
                (file_event not_utf8) start)
      as (e & _ & Hrun & _ & Hutf8 & _).
    + left. reflexivity.
    + rewrite (Hutf8 eq_refl) in Hrun. exact Hrun.
  - destruct (on_event_decode_error
                PyLib.decode_utf8 PyLib.json_loads
                (TieClient._transform_hashes TieClient.unhexlify)
                TieClient._transform_reputations TieClient._base64_to_hex
                MyReputationChangeCallback.on_reputation_change
                (file_event not_json) start)
      as (e & _ & Hrun & _ & _ & Hjson).
    + right. exists not_json. split; reflexivity.
    + rewrite (Hjson (ex_intro _ not_json eq_refl)) in Hrun. exact Hrun.
Defined.

(** The wrapped new reputations are unwrapped, and the handler prints the
    unwrapped record. *)
Lemma on_event_unwraps_reputations_witness :
  unwrap_reputations TieClient._transform_reputations "newReputations"
    (JObj wrapped_record)
  = Ok (JObj (<[ "newReputations" := JObj {[ "1" := reputation ]} ]>
                wrapped_record)) ∧
  MyReputationChangeCallback.on_event (file_event wrapped_payload) start
  = (Ok (), World [JObj unwrapped_record]
              [(JObj unwrapped_record, file_event wrapped_payload)]).
Proof.
  destruct (on_event_unwraps_reputations
              PyLib.decode_utf8 PyLib.json_loads
              (TieClient._transform_hashes TieClient.unhexlify)
              TieClient._base64_to_hex
              MyReputationChangeCallback.on_reputation_change
              (file_event wrapped_payload) wrapped_payload "newReputations"
              wrapped_record
              {[ "reputations" := JObj {[ "1" := reputation ]} ]}
              (JObj {[ "1" := reputation ]}) start)
    as (Hstep & _ & _).
  - vm_compute; reflexivity.
  - vm_compute; reflexivity.
  - left. reflexivity.
  - vm_compute; reflexivity.
  - vm_compute; reflexivity.
  - split; [exact Hstep | vm_compute; reflexivity].
Defined.

(** The unwrapped record goes through the unwrap step unchanged, once and
    twice. *)
Lemma unwrap_reputations_unwrapped_witness :
  unwrap_reputations TieClient._transform_reputations "newReputations"
    (JObj unwrapped_record) = Ok (JObj unwrapped_record) ∧
  (unwrap_reputations TieClient._transform_reputations "newReputations"
     (JObj unwrapped_record)
     ≫= unwrap_reputations TieClient._transform_reputations "newReputations")
  = unwrap_reputations TieClient._transform_reputations "newReputations"
      (JObj unwrapped_record).
Proof.
  destruct (unwrap_reputations_unwrapped TieClient._transform_reputations
              "newReputations" unwrapped_record {[ "1" := reputation ]})
    as [Hone Htwice].
  - vm_compute; reflexivity.
  - vm_compute; reflexivity.
  - split; [exact Hone | exact Htwice].
Defined.

(** The certificate of the sample relationships: hashes and public key are
    re-encoded, the issuer and the other relationship stay. *)
Lemma on_event_certificate_in_place_witness :
  ∃ cert',
    certificate_transformed
      (TieClient._transform_hashes TieClient.unhexlify)
      TieClient._base64_to_hex certificate cert' ∧
    cert' = certificate' ∧
    MyReputationChangeCallback.normalize (JObj relationships_record)
    = Ok (JObj {[ "relationships" :=
                    JObj (<[ "certificate" := JObj cert' ]> relationships) ]}).
Proof.
  destruct (on_event_certificate_in_place
              PyLib.decode_utf8 PyLib.json_loads
              (TieClient._transform_hashes TieClient.unhexlify)
              TieClient._transform_reputations TieClient._base64_to_hex
              MyReputationChangeCallback.on_reputation_change
              (file_event relationships_payload) relationships_payload
              relationships_record relationships certificate start)
    as [Hstep _].
  - vm_compute; reflexivity.
  - vm_compute; reflexivity.
  - vm_compute; reflexivity.
  - vm_compute; reflexivity.
  - destruct (proj1 (Hstep
                (JObj {[ "relationships" :=
                           JObj (<[ "certificate" := JObj certificate' ]>
                                   relationships) ]})))
      as (cert' & Hprops & Hcert').
    + vm_compute; reflexivity.
    + exists certificate'. split; [|split].
      * destruct Hprops as (Hh & Hp & Ho). unfold certificate_transformed.
        split; [|split].
        -- exists (JObj {[ "md5" := JStr "f2c7" ]}).
           split; vm_compute; reflexivity.
        -- exists (JStr "000102"). split; vm_compute; reflexivity.
        -- intros k K1 K2. unfold certificate', certificate.
           destruct (decide (k = "issuer")) as [->|K3].
           { reflexivity. }
           by rewrite !lookup_insert_ne, !lookup_singleton_ne.
      * reflexivity.
      * vm_compute; reflexivity.
Defined.

(** AAEC becomes 000102; AAE stops the run with the transform error. *)
Lemma on_event_public_key_hex_witness :
  transform_public_key TieClient._base64_to_hex (JObj key_record)
    = Ok (JObj (<[ "publicKeySha1" := JStr "000102" ]> key_record)) ∧
  MyReputationChangeCallback.on_event (cert_event key_payload) start
    = (Ok (),
       World [JObj (<[ "publicKeySha1" := JStr "000102" ]> key_record)]
         [(JObj (<[ "publicKeySha1" := JStr "000102" ]> key_record),
           cert_event key_payload)]) ∧
  transform_public_key TieClient._base64_to_hex (JObj bad_key_record)
    = Raise TransformError ∧
  stopped start
    (MyReputationChangeCallback.on_event (cert_event bad_key_payload) start).
Proof.
  destruct (on_event_public_key_hex
              PyLib.decode_utf8 PyLib.json_loads
              (TieClient._transform_hashes TieClient.unhexlify)
              TieClient._transform_reputations
              MyReputationChangeCallback.on_reputation_change
              (cert_event key_payload) key_payload key_record "AAEC" start)
    as (Hvalid & _ & _).
  { vm_compute; reflexivity. }
  { vm_compute; reflexivity. }
  { vm_compute; reflexivity. }
  destruct (on_event_public_key_hex
              PyLib.decode_utf8 PyLib.json_loads
              (TieClient._transform_hashes TieClient.unhexlify)
              TieClient._transform_reputations
              MyReputationChangeCallback.on_reputation_change
              (cert_event bad_key_payload) bad_key_payload bad_key_record
              "AAE" start)
    as (_ & Hinvalid & _).
  { vm_compute; reflexivity. }
  { vm_compute; reflexivity. }
  { vm_compute; reflexivity. }
  destruct (Hvalid (String (ascii_of_N 0) (String (ascii_of_N 1)
                      (String (ascii_of_N 2) EmptyString))) eq_refl)
    as [Hstep _].
  destruct (Hinvalid AAE_not_base64) as [Hbad Hstopped].
  split; [exact Hstep|]. split; [vm_compute; reflexivity|].
  split; [exact Hbad | exact Hstopped].
Defined.

(** The record with hashes, wrapped reputations and the change time keeps
    its three keys. *)
Lemma on_event_keeps_keys_witness :
  ∃ d',
    MyReputationChangeCallback.on_event (file_event wrapped_payload) start
    = invoke MyReputationChangeCallback.on_reputation_change (JObj d')
        (file_event wrapped_payload) start ∧
    dom d' = dom wrapped_record.
Proof.
  destruct (on_event_keeps_keys
              PyLib.decode_utf8 PyLib.json_loads
              (TieClient._transform_hashes TieClient.unhexlify)
              TieClient._transform_reputations TieClient._base64_to_hex
              MyReputationChangeCallback.on_reputation_change
              (file_event wrapped_payload) wrapped_payload wrapped_record
              start)
    as [[[e Hstop] | Hkeys] _].
  - vm_compute; reflexivity.
  - vm_compute; reflexivity.
  - vm_compute in Hstop. discriminate Hstop.
  - exact Hkeys.
Defined.

(** The same payload on two topics gives the handler the same record. *)
Lemma on_event_deterministic_witness :
  ∃ r,
    MyReputationChangeCallback.on_event (file_event key_payload) start
    = invoke MyReputationChangeCallback.on_reputation_change r
        (file_event key_payload) start ∧
    MyReputationChangeCallback.on_event (cert_event key_payload) start
    = invoke MyReputationChangeCallback.on_reputation_change r
        (cert_event key_payload) start.
Proof.
  destruct (on_event_deterministic
              PyLib.decode_utf8 PyLib.json_loads
              (TieClient._transform_hashes TieClient.unhexlify)
              TieClient._transform_reputations TieClient._base64_to_hex
              (list json) (list json)
              MyReputationChangeCallback.on_reputation_change
              MyReputationChangeCallback.on_reputation_change
              (file_event key_payload) (cert_event key_payload) start start)
    as [(e & Hstop & _) | Hsame].
  - reflexivity.
  - vm_compute in Hstop. discriminate Hstop.
  - exact Hsame.
Defined.

(** The change time next to a public key reaches the handler as parsed. *)
Lemma on_event_other_keys_witness :
  ∃ d',
    MyReputationChangeCallback.on_event (cert_event key_payload) start
    = invoke MyReputationChangeCallback.on_reputation_change (JObj d')
        (cert_event key_payload) start ∧
    d' !! "updateTime" = Some (JInt 1481219581).
Proof.
  destruct (on_event_other_keys
              PyLib.decode_utf8 PyLib.json_loads
              (TieClient._transform_hashes TieClient.unhexlify)
              TieClient._transform_reputations TieClient._base64_to_hex
              MyReputationChangeCallback.on_reputation_change
              (cert_event key_payload) key_payload key_record start
              "updateTime")
    as [[e Hstop] | (d' & Hrun & Hk)].
  - vm_compute; reflexivity.
  - vm_compute; reflexivity.
  - exact update_time_not_recognized.
  - vm_compute in Hstop. discriminate Hstop.
  - exists d'. split; [exact Hrun|]. rewrite Hk. vm_compute; reflexivity.
Defined.

End Witnesses.

(** * Further properties of [on_event] *)

(** ** The container protocol on other values *)

Lemma py_in_raise (key : string) (v : json) (e : exn) :
  py_in key v = Raise e → e = TypeError ∧ is_scalar v = true.
Proof. destruct v; simpl; intros [=]; by subst. Qed.

Lemma py_in_scalar (key : string) (v : json) :
  is_scalar v = true → py_in key v = Raise TypeError.
Proof. by destruct v. Qed.

Lemma py_in_sequence (key : string) (v : json) :
  is_sequence v = true → py_in key v = Ok (mentions v key).
Proof. by destruct v. Qed.

Lemma py_getitem_sequence (key : string) (v : json) :
  is_sequence v = true → py_getitem v key = Raise TypeError.
Proof. by destruct v. Qed.

(** A subscript behind its [in] test never raises KeyError. *)
Lemma py_getitem_guarded (key : string) (v : json) (e : exn) :
  py_in key v = Ok true → py_getitem v key = Raise e → e = TypeError.
Proof.
  destruct v as [| | | | s | l | d]; simpl; try (intros _ [= <-]; done).
  intros [= Hin]. apply bool_decide_eq_true in Hin as [x Hx].
  rewrite Hx. discriminate.
Qed.

Lemma py_setitem_raise (key : string) (v x : json) (e : exn) :
  py_setitem v key x = Raise e → e = TypeError.
Proof. destruct v; simpl; intros [=]; by subst. Qed.

Lemma bind_raise {A B} (m : result A) (f : A → result B) (e : exn) :
  m ≫= f = Raise e → m = Raise e ∨ ∃ a, m = Ok a ∧ f a = Raise e.
Proof. destruct m; simpl; [eauto | intros [= <-]; eauto]. Qed.

Section Provenance.

Variable _transform_hashes : json → result json.
Variable _transform_reputations : json → result json.
Variable _base64_to_hex : json → result json.

(** An exception of a guarded assignment [v[key] = f(v[key])] is a
    TypeError or comes from [f]. *)
Lemma guarded_update_raise
    (f : json → result json) (key : string) (v : json) (e : exn) :
  (present ← py_in key v;
   if (present : bool) then
     old ← py_getitem v key; new ← f old; py_setitem v key new
   else mret v) = Raise e →
  e = TypeError ∨ raised_by f e.
Proof.
  intros Hr. apply bind_raise in Hr as [Hin | ([] & Hin & Hr)].
  - left. by apply py_in_raise in Hin as [? _].
  - apply bind_raise in Hr as [Hget | (old & _ & Hr)].
    { left. by apply (py_getitem_guarded key v). }
    apply bind_raise in Hr as [Hf | (new & _ & Hset)].
    + right. by exists old.
    + left. by apply py_setitem_raise in Hset.
  - discriminate.
Qed.

Lemma unwrap_reputations_raise (key : string) (v : json) (e : exn) :
  unwrap_reputations _transform_reputations key v = Raise e →
  e = TypeError ∨ raised_by _transform_reputations e.
Proof.
  unfold unwrap_reputations. intros Hr.
  apply bind_raise in Hr as [Hin | ([] & Hin & Hr)].
  - left. by apply py_in_raise in Hin as [? _].
  - apply bind_raise in Hr as [Hget | (wrapper & Hw0 & Hr)].
    { left. by apply (py_getitem_guarded key v). }
    apply bind_raise in Hr as [Hin' | ([] & Hin' & Hr)].
    + left. by apply py_in_raise in Hin' as [? _].
    + apply bind_raise in Hr as [Hget | (wrapper' & Hw & Hr)].
      { left. by apply (py_getitem_guarded key v). }
      apply bind_raise in Hr as [Hget | (inner & _ & Hr)].
      { left. assert (wrapper' = wrapper) as -> by congruence.
        by apply (py_getitem_guarded "reputations" wrapper). }
      apply bind_raise in Hr as [Hf | (new & _ & Hset)].
      * right. by exists inner.
      * left. by apply py_setitem_raise in Hset.
    + discriminate.
  - discriminate.
Qed.

Lemma transform_relationships_raise (v : json) (e : exn) :
  transform_relationships _transform_hashes _base64_to_hex v = Raise e →
  e = TypeError ∨ raised_by _transform_hashes e ∨
  raised_by _base64_to_hex e.
Proof.
  unfold transform_relationships. intros Hr.
  apply bind_raise in Hr as [Hin | ([] & Hin & Hr)].
  - left. by apply py_in_raise in Hin as [? _].
  - apply bind_raise in Hr as [Hget | (rel & _ & Hr)].
    { left.
      by apply (py_getitem_guarded FileRepChangeEventProp.RELATIONSHIPS v). }
    apply bind_raise in Hr as [Hin' | ([] & Hin' & Hr)].
    + left. by apply py_in_raise in Hin' as [? _].
    + apply bind_raise in Hr as [Hget | (cert & _ & Hr)].
      { left. by apply (py_getitem_guarded "certificate" rel). }
      apply bind_raise in Hr as [Hh | (cert1 & _ & Hr)].
      { apply guarded_update_raise in Hh as [?|?]; auto. }
      apply bind_raise in Hr as [Hp | (cert2 & _ & Hr)].
      { apply guarded_update_raise in Hp as [?|?]; auto. }
      apply bind_raise in Hr as [Hset | (rel' & _ & Hset)];
        left; by apply py_setitem_raise in Hset.
    + discriminate.
  - discriminate.
Qed.

Lemma normalize_raise (v : json) (e : exn) :
  normalize _transform_hashes _transform_reputations _base64_to_hex v
    = Raise e →
  e = TypeError ∨ raised_by _transform_hashes e ∨
  raised_by _transform_reputations e ∨ raised_by _base64_to_hex e.
Proof.
  unfold normalize. intros Hr.
  apply bind_raise in Hr as [H1 | (v1 & _ & Hr)].
  { apply guarded_update_raise in H1 as [?|?]; auto. }
  apply bind_raise in Hr as [H2 | (v2 & _ & Hr)].
  { apply unwrap_reputations_raise in H2 as [?|?]; auto. }
  apply bind_raise in Hr as [H3 | (v3 & _ & Hr)].
  { apply unwrap_reputations_raise in H3 as [?|?]; auto. }
  apply bind_raise in Hr as [H4 | (v4 & _ & Hr)].
  { apply transform_relationships_raise in H4 as [?|[?|?]]; auto. }
  apply guarded_update_raise in Hr as [?|?]; auto.
Qed.

End Provenance.

(** ** The steps, field by field *)

Lemma lookup_put_ne (K k : string) (o : option json) (d : gmap string json) :
  K ≠ k → put K o d !! k = d !! k.
Proof. intros Hne. destruct o; simpl; [by apply lookup_insert_ne | done]. Qed.

Lemma lookup_put_eq (f : json → result json) (K : string)
    (o : option json) (d : gmap string json) :
  field f (d !! K) = Ok o → put K o d !! K = o.
Proof.
  unfold field. destruct (d !! K) as [v|] eqn:Hk.
  - destruct (f v); simpl; intros [= <-]. apply lookup_insert_eq.
  - by intros [= <-].
Qed.

Lemma field_raise (f : json → result json) (o : option json) (e : exn) :
  field f o = Raise e ↔ ∃ v, o = Some v ∧ f v = Raise e.
Proof.
  unfold field. destruct o as [v|]; simpl.
  - destruct (f v) eqn:Hf; simpl; split.
    + discriminate.
    + intros (? & [= <-] & ?). congruence.
    + intros [= <-]. eauto.
    + intros (? & [= <-] & ?). congruence.
  - split; [discriminate | by intros (? & ? & _)].
Qed.

Section Fields.

Variable _transform_hashes : json → result json.
Variable _transform_reputations : json → result json.
Variable _base64_to_hex : json → result json.

Lemma transform_hashes_field (d : gmap string json) :
  transform_hashes _transform_hashes (JObj d) =
  (o ← field _transform_hashes (d !! RepChangeEventProp.HASHES);
   Ok (JObj (put RepChangeEventProp.HASHES o d))).
Proof.
  rewrite transform_hashes_obj.
  destruct (d !! RepChangeEventProp.HASHES) as [v|]; simpl; [|done].
  by destruct (_transform_hashes v).
Qed.

Lemma unwrap_reputations_field (key : string) (d : gmap string json) :
  unwrap_reputations _transform_reputations key (JObj d) =
  (o ← field (unwrap_value _transform_reputations) (d !! key);
   Ok (JObj (put key o d))).
Proof.
  rewrite unwrap_reputations_obj.
  destruct (d !! key) as [wrapper|] eqn:Hk; simpl; [|done].
  unfold unwrap_value.
  destruct (py_in "reputations" wrapper) as [[]|]; simpl; [| |done].
  - destruct (py_getitem wrapper "reputations") as [inner|]; simpl; [|done].
    by destruct (_transform_reputations inner).
  - by rewrite insert_id.
Qed.

Lemma transform_relationships_field (d : gmap string json) :
  transform_relationships _transform_hashes _base64_to_hex (JObj d) =
  (o ← field (relationships_value _transform_hashes _base64_to_hex)
         (d !! FileRepChangeEventProp.RELATIONSHIPS);
   Ok (JObj (put FileRepChangeEventProp.RELATIONSHIPS o d))).
Proof.
  rewrite transform_relationships_obj.
  destruct (d !! FileRepChangeEventProp.RELATIONSHIPS) as [rel|] eqn:Hk;
    simpl; [|done].
  unfold relationships_value.
  destruct (py_in "certificate" rel) as [[]|]; simpl; [| |done].
  - destruct (py_getitem rel "certificate") as [c0|]; simpl; [|done].
    destruct (transform_cert_hashes _ c0) as [c1|]; simpl; [|done].
    destruct (transform_cert_public_key _ c1) as [c2|]; simpl; [|done].
    by destruct (py_setitem rel "certificate" c2).
  - by rewrite insert_id.
Qed.

Lemma transform_public_key_field (d : gmap string json) :
  transform_public_key _base64_to_hex (JObj d) =
  (o ← field _base64_to_hex (d !! CertRepChangeEventProp.PUBLIC_KEY_SHA1);
   Ok (JObj (put CertRepChangeEventProp.PUBLIC_KEY_SHA1 o d))).
Proof.
  rewrite transform_public_key_obj.
  destruct (d !! CertRepChangeEventProp.PUBLIC_KEY_SHA1) as [v|];
    simpl; [|done].
  by destruct (_base64_to_hex v).
Qed.

(** [normalize] on a dictionary: every field is transformed from the value
    the parsed record holds for it. *)
Lemma normalize_fields (d : gmap string json) :
  normalize _transform_hashes _transform_reputations _base64_to_hex (JObj d) =
  (o1 ← field _transform_hashes (d !! RepChangeEventProp.HASHES);
   o2 ← field (unwrap_value _transform_reputations)
          (d !! RepChangeEventProp.NEW_REPUTATIONS);
   o3 ← field (unwrap_value _transform_reputations)
          (d !! RepChangeEventProp.OLD_REPUTATIONS);
   o4 ← field (relationships_value _transform_hashes _base64_to_hex)
          (d !! FileRepChangeEventProp.RELATIONSHIPS);
   o5 ← field _base64_to_hex (d !! CertRepChangeEventProp.PUBLIC_KEY_SHA1);
   Ok (JObj (put CertRepChangeEventProp.PUBLIC_KEY_SHA1 o5
     (put FileRepChangeEventProp.RELATIONSHIPS o4
       (put RepChangeEventProp.OLD_REPUTATIONS o3
         (put RepChangeEventProp.NEW_REPUTATIONS o2
           (put RepChangeEventProp.HASHES o1 d))))))).
Proof.
  unfold normalize. rewrite transform_hashes_field.
  destruct (field _ (d !! RepChangeEventProp.HASHES)) as [o1|]; simpl; [|done].
  rewrite unwrap_reputations_field, lookup_put_ne by done.
  destruct (field _ (d !! RepChangeEventProp.NEW_REPUTATIONS)) as [o2|];
    simpl; [|done].
  rewrite unwrap_reputations_field, !lookup_put_ne by done.
  destruct (field _ (d !! RepChangeEventProp.OLD_REPUTATIONS)) as [o3|];
    simpl; [|done].
  rewrite transform_relationships_field, !lookup_put_ne by done.
  destruct (field _ (d !! FileRepChangeEventProp.RELATIONSHIPS)) as [o4|];
    simpl; [|done].
  rewrite transform_public_key_field, !lookup_put_ne by done.
  by destruct (field _ (d !! CertRepChangeEventProp.PUBLIC_KEY_SHA1)).
Qed.

End Fields.

Lemma lookup_put_same (f : json → result json) (K : string)
    (o : option json) (d d0 : gmap string json) :
  d !! K = d0 !! K → field f (d0 !! K) = Ok o → put K o d !! K = o.
Proof. intros <-. apply lookup_put_eq. Qed.

Lemma recognized_cases (k : string) :
  k ≠ RepChangeEventProp.HASHES →
  k ≠ RepChangeEventProp.NEW_REPUTATIONS →
  k ≠ RepChangeEventProp.OLD_REPUTATIONS →
  k ≠ FileRepChangeEventProp.RELATIONSHIPS →
  k ≠ CertRepChangeEventProp.PUBLIC_KEY_SHA1 →
  k ∉ recognized.
Proof.
  intros N1 N2 N3 N4 N5. unfold recognized.
  rewrite !not_elem_of_cons. repeat split; try done. apply not_elem_of_nil.
Qed.

Section Edges.

Variable decode_utf8 : string → option string.
Variable json_loads : string → option json.
Variable _transform_hashes : json → result json.
Variable _transform_reputations : json → result json.
Variable _base64_to_hex : json → result json.
Context {S : Type}.
Variable on_reputation_change : json → Event → S → result () * S.

#[local] Abbreviation normalize' :=
  (normalize _transform_hashes _transform_reputations _base64_to_hex).
#[local] Abbreviation on_event' :=
  (on_event decode_utf8 json_loads _transform_hashes _transform_reputations
     _base64_to_hex on_reputation_change).

(** On a list or a string every guard is a membership test, and a guard
    that holds leads to a subscript that raises. *)
Lemma guarded_update_sequence
    (f : json → result json) (key : string) (v : json) :
  is_sequence v = true →
  (present ← py_in key v;
   if (present : bool) then
     old ← py_getitem v key; new ← f old; py_setitem v key new
   else mret v)
  = if mentions v key then Raise TypeError else Ok v.
Proof.
  intros Hv. rewrite (py_in_sequence _ _ Hv). simpl.
  destruct (mentions v key); [|done]. by rewrite (py_getitem_sequence _ _ Hv).
Qed.

Lemma unwrap_reputations_sequence (key : string) (v : json) :
  is_sequence v = true →
  unwrap_reputations _transform_reputations key v
  = if mentions v key then Raise TypeError else Ok v.
Proof.
  intros Hv. unfold unwrap_reputations. rewrite (py_in_sequence _ _ Hv). simpl.
  destruct (mentions v key); [|done]. by rewrite (py_getitem_sequence _ _ Hv).
Qed.

Lemma transform_relationships_sequence (v : json) :
  is_sequence v = true →
  transform_relationships _transform_hashes _base64_to_hex v
  = if mentions v FileRepChangeEventProp.RELATIONSHIPS
    then Raise TypeError else Ok v.
Proof.
  intros Hv. unfold transform_relationships.
  rewrite (py_in_sequence _ _ Hv). simpl.
  destruct (mentions v _); [|done]. by rewrite (py_getitem_sequence _ _ Hv).
Qed.

Lemma normalize_sequence (v : json) :
  is_sequence v = true →
  normalize' v
  = if existsb (mentions v) recognized then Raise TypeError else Ok v.
Proof.
  intros Hv. unfold normalize, recognized, existsb.
  unfold transform_hashes. rewrite (guarded_update_sequence _ _ _ Hv).
  destruct (mentions v RepChangeEventProp.HASHES); simpl; [done|].
  rewrite (unwrap_reputations_sequence _ _ Hv).
  destruct (mentions v RepChangeEventProp.NEW_REPUTATIONS); simpl; [done|].
  rewrite (unwrap_reputations_sequence _ _ Hv).
  destruct (mentions v RepChangeEventProp.OLD_REPUTATIONS); simpl; [done|].
  rewrite (transform_relationships_sequence _ Hv).
  destruct (mentions v FileRepChangeEventProp.RELATIONSHIPS); simpl; [done|].
  unfold transform_public_key. rewrite (guarded_update_sequence _ _ _ Hv).
  by destruct (mentions v CertRepChangeEventProp.PUBLIC_KEY_SHA1).
Qed.

(** X1.  A payload that parses to null, a boolean or a number makes
    [on_event] raise TypeError at the first membership test (line 69): the
    handler is not called. *)
Theorem on_event_scalar_document
    (event : Event) (text : string) (v : json) (w : world S) :
  decode_utf8 (payload event) = Some text →
  json_loads text = Some v →
  is_scalar v = true →
  on_event' event w = (Raise TypeError, w).
Proof.
  intros Hdec Hload Hv.
  rewrite (on_event_parsed _ _ _ _ _ _ _ _ _ _ Hdec Hload).
  unfold normalize, transform_hashes. by rewrite (py_in_scalar _ _ Hv).
Qed.

(** X2.  A payload that parses to an array or to a string is handed to the
    handler as it is, with no helper run, unless one of the five key names
    occurs in it (as an element of the array, as a substring of the
    string); then the subscript behind the guard raises TypeError and the
    handler is not called. *)
Theorem on_event_sequence_document
    (event : Event) (text : string) (v : json) (w : world S) :
  decode_utf8 (payload event) = Some text →
  json_loads text = Some v →
  is_sequence v = true →
  on_event' event w =
  if existsb (mentions v) recognized
  then (Raise TypeError, w)
  else invoke on_reputation_change v event w.
Proof.
  intros Hdec Hload Hv.
  rewrite (on_event_parsed _ _ _ _ _ _ _ _ _ _ Hdec Hload).
  rewrite (normalize_sequence _ Hv).
  by destruct (existsb (mentions v) recognized).
Qed.

(** X3.  In one run of [on_event] the handler is called at most once, as
    the last action and with the event that was received.  When it is not
    called the state of the derived class is untouched; when it is called,
    its result, an exception included, is the result of [on_event]. *)
Theorem on_event_calls_handler_once (event : Event) (w : world S) :
  stopped w (on_event' event w) ∨
  ∃ r,
    (on_event' event w).1 = (on_reputation_change r event (user w)).1 ∧
    user (on_event' event w).2 = (on_reputation_change r event (user w)).2 ∧
    calls (on_event' event w).2 = (calls w ++ [(r, event)])%list.
Proof.
  destruct (on_event_cases decode_utf8 json_loads _transform_hashes
              _transform_reputations _base64_to_hex on_reputation_change
              event w) as [Hstop | [r ->]]; [by left | right].
  exists r. unfold invoke.
  by destruct (on_reputation_change r event (user w)).
Qed.

(** X4.  An exception that comes out of [on_event] is a decode error of
    line 66, a TypeError of a membership test, subscript or assignment on a
    value of the wrong kind, an exception raised by one of the three
    helpers, or an exception raised by the handler.  Every subscript sits
    behind its membership test, so the callback itself raises no
    KeyError. *)
Theorem on_event_exception_provenance
    (event : Event) (w : world S) (e : exn) :
  (on_event' event w).1 = Raise e →
  decode_error e ∨ e = TypeError ∨
  raised_by _transform_hashes e ∨ raised_by _transform_reputations e ∨
  raised_by _base64_to_hex e ∨
  ∃ r, (on_reputation_change r event (user w)).1 = Raise e.
Proof.
  unfold on_event, M_bind, lift, decode, loads, decode_error.
  destruct (decode_utf8 (payload event)) as [text|];
    [|simpl; intros [= <-]; left; by left].
  destruct (json_loads text) as [v|];
    [|simpl; intros [= <-]; left; by right].
  destruct (normalize' v) as [r|e'] eqn:Hn.
  - intros Hrun. do 5 right. exists r. unfold invoke in Hrun.
    by destruct (on_reputation_change r event (user w)).
  - simpl. intros [= <-]. right.
    apply normalize_raise in Hn as [?|[?|[?|?]]];
      [by left | right; by left | do 2 right; by left
      | do 3 right; by left].
Qed.

(** X5.  The five steps do not depend on one another.  On a parsed record
    [normalize] succeeds exactly when each step succeeds on that record
    taken alone; then each of the five keys holds what its own step
    computes from the parsed record and every other key holds the parsed
    value.  The result is therefore the same in any order of the steps. *)
Theorem normalize_steps_independent (d : gmap string json) (r : json) :
  normalize' (JObj d) = Ok r ↔
  ∃ d1 d2 d3 d4 d5 d' : gmap string json,
    transform_hashes _transform_hashes (JObj d) = Ok (JObj d1) ∧
    unwrap_reputations _transform_reputations
      RepChangeEventProp.NEW_REPUTATIONS (JObj d) = Ok (JObj d2) ∧
    unwrap_reputations _transform_reputations
      RepChangeEventProp.OLD_REPUTATIONS (JObj d) = Ok (JObj d3) ∧
    transform_relationships _transform_hashes _base64_to_hex (JObj d)
      = Ok (JObj d4) ∧
    transform_public_key _base64_to_hex (JObj d) = Ok (JObj d5) ∧
    r = JObj d' ∧
    d' !! RepChangeEventProp.HASHES = d1 !! RepChangeEventProp.HASHES ∧
    d' !! RepChangeEventProp.NEW_REPUTATIONS
      = d2 !! RepChangeEventProp.NEW_REPUTATIONS ∧
    d' !! RepChangeEventProp.OLD_REPUTATIONS
      = d3 !! RepChangeEventProp.OLD_REPUTATIONS ∧
    d' !! FileRepChangeEventProp.RELATIONSHIPS
      = d4 !! FileRepChangeEventProp.RELATIONSHIPS ∧
    d' !! CertRepChangeEventProp.PUBLIC_KEY_SHA1
      = d5 !! CertRepChangeEventProp.PUBLIC_KEY_SHA1 ∧
    ∀ k, k ∉ recognized → d' !! k = d !! k.
Proof.
  rewrite normalize_fields, transform_hashes_field,
    !unwrap_reputations_field, transform_relationships_field,
    transform_public_key_field.
  split.
  - intros Hn.
    apply bind_ok in Hn as (o1 & F1 & Hn).
    apply bind_ok in Hn as (o2 & F2 & Hn).
    apply bind_ok in Hn as (o3 & F3 & Hn).
    apply bind_ok in Hn as (o4 & F4 & Hn).
    apply bind_ok in Hn as (o5 & F5 & Hn). injection Hn as <-.
    rewrite F1, F2, F3, F4, F5. simpl.
    do 6 eexists. repeat (split; [reflexivity|]).
    split; [by rewrite !lookup_put_ne by done|].
    split.
    { rewrite !lookup_put_ne by done.
      rewrite (lookup_put_same _ _ _ _ d)
        by (by rewrite ?lookup_put_ne by done).
      by rewrite (lookup_put_eq _ _ _ _ F2). }
    split.
    { rewrite !lookup_put_ne by done.
      rewrite (lookup_put_same _ _ _ _ d)
        by (by rewrite ?lookup_put_ne by done).
      by rewrite (lookup_put_eq _ _ _ _ F3). }
    split.
    { rewrite !lookup_put_ne by done.
      rewrite (lookup_put_same _ _ _ _ d)
        by (by rewrite ?lookup_put_ne by done).
      by rewrite (lookup_put_eq _ _ _ _ F4). }
    split.
    { rewrite (lookup_put_same _ _ _ _ d)
        by (by rewrite ?lookup_put_ne by done).
      by rewrite (lookup_put_eq _ _ _ _ F5). }
    intros k (N1 & N2 & N3 & N4 & N5)%not_recognized.
    by rewrite !lookup_put_ne by done.
  - intros (d1 & d2 & d3 & d4 & d5 & d' & H1 & H2 & H3 & H4 & H5 & -> &
            L1 & L2 & L3 & L4 & L5 & Lother).
    apply bind_ok in H1 as (o1 & F1 & H1). injection H1 as <-.
    apply bind_ok in H2 as (o2 & F2 & H2). injection H2 as <-.
    apply bind_ok in H3 as (o3 & F3 & H3). injection H3 as <-.
    apply bind_ok in H4 as (o4 & F4 & H4). injection H4 as <-.
    apply bind_ok in H5 as (o5 & F5 & H5). injection H5 as <-.
    rewrite F1, F2, F3, F4, F5. simpl. do 2 f_equal.
    apply map_eq. intros k.
    destruct (decide (k = CertRepChangeEventProp.PUBLIC_KEY_SHA1)) as [->|N5].
    { rewrite L5, (lookup_put_eq _ _ _ _ F5).
      apply (lookup_put_same _base64_to_hex _ _ _ d); [|done].
      by rewrite ?lookup_put_ne by done. }
    rewrite lookup_put_ne by done.
    destruct (decide (k = FileRepChangeEventProp.RELATIONSHIPS)) as [->|N4].
    { rewrite L4, (lookup_put_eq _ _ _ _ F4).
      apply (lookup_put_same
               (relationships_value _transform_hashes _base64_to_hex)
               _ _ _ d); [|done].
      by rewrite ?lookup_put_ne by done. }
    rewrite lookup_put_ne by done.
    destruct (decide (k = RepChangeEventProp.OLD_REPUTATIONS)) as [->|N3].
    { rewrite L3, (lookup_put_eq _ _ _ _ F3).
      apply (lookup_put_same (unwrap_value _transform_reputations) _ _ _ d);
        [|done].
      by rewrite ?lookup_put_ne by done. }
    rewrite lookup_put_ne by done.
    destruct (decide (k = RepChangeEventProp.NEW_REPUTATIONS)) as [->|N2].
    { rewrite L2, (lookup_put_eq _ _ _ _ F2).
      apply (lookup_put_same (unwrap_value _transform_reputations) _ _ _ d);
        [|done].
      by rewrite ?lookup_put_ne by done. }
    rewrite lookup_put_ne by done.
    destruct (decide (k = RepChangeEventProp.HASHES)) as [->|N1].
    { by rewrite L1. }
    rewrite lookup_put_ne by done.
    symmetry. by apply Lother, recognized_cases.
Qed.

(** X6.  Exceptions surface in the order of the source.  On a parsed record
    the exception of [normalize] is that of the first of the five steps
    (hashes, newReputations, oldReputations, relationships, publicKeySha1)
    that raises when run on the parsed record alone, and [normalize]
    succeeds when none of them raises. *)
Theorem normalize_first_error (d : gmap string json) :
  first_error
    [ transform_hashes _transform_hashes (JObj d);
      unwrap_reputations _transform_reputations
        RepChangeEventProp.NEW_REPUTATIONS (JObj d);
      unwrap_reputations _transform_reputations
        RepChangeEventProp.OLD_REPUTATIONS (JObj d);
      transform_relationships _transform_hashes _base64_to_hex (JObj d);
      transform_public_key _base64_to_hex (JObj d) ]
  = match normalize' (JObj d) with
    | Ok _ => None
    | Raise e => Some e
    end.
Proof.
  rewrite normalize_fields, transform_hashes_field,
    !unwrap_reputations_field, transform_relationships_field,
    transform_public_key_field.
  destruct (field _ (d !! RepChangeEventProp.HASHES)); simpl; [|done].
  destruct (field _ (d !! RepChangeEventProp.NEW_REPUTATIONS)); simpl; [|done].
  destruct (field _ (d !! RepChangeEventProp.OLD_REPUTATIONS)); simpl; [|done].
  destruct (field _ (d !! FileRepChangeEventProp.RELATIONSHIPS));
    simpl; [|done].
  by destruct (field _ (d !! CertRepChangeEventProp.PUBLIC_KEY_SHA1)).
Qed.

(** X7.  A parsed record that holds null, a boolean or a number where the
    callback expects a container (under newReputations, oldReputations or
    relationships, or under relationships.certificate) never reaches the
    handler: the step of that key raises TypeError on the record, and
    [on_event] ends with an exception. *)
Theorem on_event_scalar_field
    (event : Event) (text : string) (d : gmap string json) (v : json)
    (w : world S) :
  decode_utf8 (payload event) = Some text →
  json_loads text = Some (JObj d) →
  is_scalar v = true →
  d !! RepChangeEventProp.NEW_REPUTATIONS = Some v ∨
  d !! RepChangeEventProp.OLD_REPUTATIONS = Some v ∨
  d !! FileRepChangeEventProp.RELATIONSHIPS = Some v ∨
  (∃ rel : gmap string json,
     d !! FileRepChangeEventProp.RELATIONSHIPS = Some (JObj rel) ∧
     rel !! "certificate" = Some v) →
  stopped w (on_event' event w) ∧
  Raise TypeError ∈
    [ unwrap_reputations _transform_reputations
        RepChangeEventProp.NEW_REPUTATIONS (JObj d);
      unwrap_reputations _transform_reputations
        RepChangeEventProp.OLD_REPUTATIONS (JObj d);
      transform_relationships _transform_hashes _base64_to_hex (JObj d) ].
Proof.
  intros Hdec Hload Hv Hd.
  rewrite (on_event_parsed _ _ _ _ _ _ _ _ _ _ Hdec Hload).
  rewrite normalize_fields, !unwrap_reputations_field,
    transform_relationships_field.
  assert (unwrap_value _transform_reputations v = Raise TypeError) as Hu.
  { unfold unwrap_value. by rewrite (py_in_scalar _ _ Hv). }
  assert (relationships_value _transform_hashes _base64_to_hex v
          = Raise TypeError) as Hr.
  { unfold relationships_value. by rewrite (py_in_scalar _ _ Hv). }
  destruct Hd as [Hd | [Hd | [Hd | (rel & Hd & Hc)]]]; rewrite Hd; simpl.
  - rewrite Hu. simpl. split; [|by left].
    destruct (field _ (d !! RepChangeEventProp.HASHES)); simpl; by eexists.
  - rewrite Hu. simpl. split; [|by right; left].
    destruct (field _ (d !! RepChangeEventProp.HASHES)); simpl;
      [|by eexists].
    destruct (field _ (d !! RepChangeEventProp.NEW_REPUTATIONS)); simpl;
      by eexists.
  - rewrite Hr. simpl. split; [|by right; right; left].
    destruct (field _ (d !! RepChangeEventProp.HASHES)); simpl;
      [|by eexists].
    destruct (field _ (d !! RepChangeEventProp.NEW_REPUTATIONS)); simpl;
      [|by eexists].
    destruct (field _ (d !! RepChangeEventProp.OLD_REPUTATIONS)); simpl;
      by eexists.
  - assert (relationships_value _transform_hashes _base64_to_hex (JObj rel)
            = Raise TypeError) as ->.
    { unfold relationships_value.
      rewrite (py_in_present _ _ _ Hc). simpl. rewrite Hc. simpl.
      unfold transform_cert_hashes. by rewrite (py_in_scalar _ _ Hv). }
    simpl. split; [|by right; right; left].
    destruct (field _ (d !! RepChangeEventProp.HASHES)); simpl;
      [|by eexists].
    destruct (field _ (d !! RepChangeEventProp.NEW_REPUTATIONS)); simpl;
      [|by eexists].
    destruct (field _ (d !! RepChangeEventProp.OLD_REPUTATIONS)); simpl;
      by eexists.
Qed.

(** X8.  The unwrap step keeps nothing of the wrapper but the value under
    reputations: two records that differ only in the other members of the
    wrapper give the same result, so those members are dropped. *)
Theorem unwrap_reputations_drops_siblings
    (key : string) (d m m' : gmap string json) (v : json) :
  m !! "reputations" = Some v →
  m' !! "reputations" = Some v →
  unwrap_reputations _transform_reputations key (JObj (<[key := JObj m]> d))
  = unwrap_reputations _transform_reputations key
      (JObj (<[key := JObj m']> d)) ∧
  unwrap_reputations _transform_reputations key (JObj (<[key := JObj m]> d))
  = (new ← _transform_reputations v; Ok (JObj (<[key := new]> d))).
Proof.
  intros Hm Hm'.
  assert (∀ m0 : gmap string json,
            m0 !! "reputations" = Some v →
            unwrap_reputations _transform_reputations key
              (JObj (<[key := JObj m0]> d))
            = (new ← _transform_reputations v;
               Ok (JObj (<[key := new]> d)))) as Hstep.
  { intros m0 Hm0. rewrite unwrap_reputations_obj, lookup_insert_eq.
    rewrite (py_in_present _ _ _ Hm0). simpl. rewrite Hm0. simpl.
    destruct (_transform_reputations v); simpl; [|done].
    by rewrite insert_insert_eq. }
  split; [|by apply Hstep]. by rewrite !Hstep.
Qed.

Lemma field_total (f : json → result json) (o : option json) :
  (∀ v, o = Some v → ∃ y, f v = Ok y) → ∃ o', field f o = Ok o'.
Proof.
  intros Hf. destruct o as [v|]; simpl; [|eauto].
  destruct (Hf v eq_refl) as [y ->]. simpl. eauto.
Qed.

Lemma unwrap_value_object (m : gmap string json) :
  total _transform_reputations →
  ∃ y, unwrap_value _transform_reputations (JObj m) = Ok y.
Proof.
  intros Htr. unfold unwrap_value.
  destruct (m !! "reputations") as [inner|] eqn:Hm.
  - rewrite (py_in_present _ _ _ Hm). simpl. rewrite Hm. apply Htr.
  - rewrite (py_in_absent _ _ Hm). simpl. eauto.
Qed.

(** What the two assignments do to a certificate object when they
    succeed. *)
Lemma transform_cert_keys (cert : gmap string json) (r : json) :
  (transform_cert_hashes _transform_hashes (JObj cert)
     ≫= transform_cert_public_key _base64_to_hex) = Ok r →
  ∃ cert', r = JObj cert' ∧ dom cert' = dom cert.
Proof.
  intros (cert' & -> & Hh & Hp & Hother)%transform_cert_ok.
  exists cert'. split; [done|]. apply set_eq. intros k.
  rewrite !elem_of_dom.
  destruct (decide (k = "hashes")) as [->|K1].
  { unfold transformed_by in Hh.
    destruct (cert !! "hashes"); [destruct Hh as (? & _ & ->)|rewrite Hh];
      split; (done || eauto). }
  destruct (decide (k = "publicKeySha1")) as [->|K2].
  { unfold transformed_by in Hp.
    destruct (cert !! "publicKeySha1");
      [destruct Hp as (? & _ & ->)|rewrite Hp]; split; (done || eauto). }
  by rewrite Hother.
Qed.

Lemma transform_cert_total (cert : gmap string json) :
  total _transform_hashes → total _base64_to_hex →
  ∃ cert',
    (transform_cert_hashes _transform_hashes (JObj cert)
       ≫= transform_cert_public_key _base64_to_hex) = Ok (JObj cert').
Proof.
  intros Hth Hb2h. rewrite transform_cert_hashes_obj.
  destruct (cert !! "hashes") as [h|]; simpl.
  - destruct (Hth h) as [h' ->]. simpl.
    rewrite transform_cert_public_key_obj.
    destruct (_ !! "publicKeySha1") as [p|]; [|eauto].
    destruct (Hb2h p) as [p' ->]. simpl. eauto.
  - rewrite transform_cert_public_key_obj.
    destruct (_ !! "publicKeySha1") as [p|]; [|eauto].
    destruct (Hb2h p) as [p' ->]. simpl. eauto.
Qed.

(** The relationships object keeps its keys, and so does a certificate
    object in it. *)
Lemma relationships_value_keys (rel : gmap string json) (r : json) :
  relationships_value _transform_hashes _base64_to_hex (JObj rel) = Ok r →
  ∃ rel' : gmap string json,
    r = JObj rel' ∧ dom rel' = dom rel ∧
    (∀ k, k ≠ "certificate" → rel' !! k = rel !! k) ∧
    (∀ cert : gmap string json,
       rel !! "certificate" = Some (JObj cert) →
       ∃ cert' : gmap string json,
         rel' !! "certificate" = Some (JObj cert') ∧ dom cert' = dom cert).
Proof.
  unfold relationships_value.
  destruct (rel !! "certificate") as [c|] eqn:Hc.
  - rewrite (py_in_present _ _ _ Hc). simpl. rewrite Hc. simpl.
    intros Hr.
    destruct (transform_cert_hashes _transform_hashes c) as [c1|] eqn:H1;
      [|discriminate].
    simpl in Hr.
    destruct (transform_cert_public_key _base64_to_hex c1) as [c2|] eqn:H2;
      [|discriminate].
    simpl in Hr. injection Hr as <-.
    exists (<["certificate" := c2]> rel). split; [done|]. split; [|split].
    + rewrite dom_insert_L.
      apply subseteq_union_1_L, singleton_subseteq_l, elem_of_dom. eauto.
    + intros k Hk. by rewrite lookup_insert_ne.
    + intros cert [= ->].
      destruct (transform_cert_keys cert c2) as (cert' & -> & Hdom).
      { by rewrite H1. }
      exists cert'. by rewrite lookup_insert_eq.
  - rewrite (py_in_absent _ _ Hc). simpl. intros [= <-].
    exists rel. repeat split; [done..|]. intros cert [=].
Qed.

Lemma relationships_value_object (rel : gmap string json) :
  total _transform_hashes → total _base64_to_hex →
  object_or_absent (rel !! "certificate") →
  ∃ y, relationships_value _transform_hashes _base64_to_hex (JObj rel) = Ok y.
Proof.
  intros Hth Hb2h Hrel. unfold relationships_value.
  destruct (rel !! "certificate") as [c|] eqn:Hc.
  - rewrite (py_in_present _ _ _ Hc). simpl. rewrite Hc. simpl.
    destruct c as [| | | | | |cert]; simpl in Hrel; try done.
    destruct (transform_cert_total cert Hth Hb2h) as [cert' Hrun].
    destruct (transform_cert_hashes _transform_hashes (JObj cert))
      as [c1|]; [|discriminate].
    simpl in *. rewrite Hrun. simpl. eauto.
  - rewrite (py_in_absent _ _ Hc). simpl. eauto.
Qed.

(** X9.  When the three helpers raise nothing and the container-valued
    fields of the parsed record are objects (newReputations, oldReputations,
    relationships and the certificate inside it, each of them possibly
    missing), [on_event] raises nothing of its own: it calls the handler. *)
Theorem on_event_reaches_handler
    (event : Event) (text : string) (d : gmap string json) (w : world S) :
  decode_utf8 (payload event) = Some text →
  json_loads text = Some (JObj d) →
  total _transform_hashes →
  total _transform_reputations →
  total _base64_to_hex →
  well_shaped d →
  ∃ d', on_event' event w = invoke on_reputation_change (JObj d') event w.
Proof.
  intros Hdec Hload Hth Htr Hb2h (Hnew & Hold & Hrel).
  rewrite (on_event_parsed _ _ _ _ _ _ _ _ _ _ Hdec Hload), normalize_fields.
  destruct (field_total _transform_hashes (d !! RepChangeEventProp.HASHES))
    as [o1 ->]; [intros; apply Hth|]. simpl.
  destruct (field_total (unwrap_value _transform_reputations)
              (d !! RepChangeEventProp.NEW_REPUTATIONS)) as [o2 ->].
  { intros v Hv. rewrite Hv in Hnew. destruct v; simpl in Hnew; try done.
    by apply unwrap_value_object. }
  simpl.
  destruct (field_total (unwrap_value _transform_reputations)
              (d !! RepChangeEventProp.OLD_REPUTATIONS)) as [o3 ->].
  { intros v Hv. rewrite Hv in Hold. destruct v; simpl in Hold; try done.
    by apply unwrap_value_object. }
  simpl.
  destruct (field_total
              (relationships_value _transform_hashes _base64_to_hex)
              (d !! FileRepChangeEventProp.RELATIONSHIPS)) as [o4 ->].
  { intros v Hv. rewrite Hv in Hrel. destruct v; try done.
    by apply relationships_value_object. }
  simpl.
  destruct (field_total _base64_to_hex
              (d !! CertRepChangeEventProp.PUBLIC_KEY_SHA1))
    as [o5 ->]; [intros; apply Hb2h|]. simpl.
  eauto.
Qed.

(** X10.  The nested objects keep their keys too.  For a parsed record
    whose relationships value is an object, the handler, when it is called,
    finds under relationships an object with the same keys, equal to the
    parsed one outside the key certificate; and where the parsed
    certificate is an object, it finds a certificate object with the same
    keys. *)
Theorem on_event_keeps_nested_keys
    (event : Event) (text : string) (d rel : gmap string json)
    (w : world S) :
  decode_utf8 (payload event) = Some text →
  json_loads text = Some (JObj d) →
  d !! FileRepChangeEventProp.RELATIONSHIPS = Some (JObj rel) →
  stopped w (on_event' event w) ∨
  ∃ d' rel' : gmap string json,
    on_event' event w = invoke on_reputation_change (JObj d') event w ∧
    d' !! FileRepChangeEventProp.RELATIONSHIPS = Some (JObj rel') ∧
    dom rel' = dom rel ∧
    (∀ k, k ≠ "certificate" → rel' !! k = rel !! k) ∧
    (∀ cert : gmap string json,
       rel !! "certificate" = Some (JObj cert) →
       ∃ cert' : gmap string json,
         rel' !! "certificate" = Some (JObj cert') ∧ dom cert' = dom cert).
Proof.
  intros Hdec Hload Hrel.
  rewrite (on_event_parsed _ _ _ _ _ _ _ _ _ _ Hdec Hload), normalize_fields.
  destruct (field _ (d !! RepChangeEventProp.HASHES)) as [o1|e];
    simpl; [|left; by exists e].
  destruct (field _ (d !! RepChangeEventProp.NEW_REPUTATIONS)) as [o2|e];
    simpl; [|left; by exists e].
  destruct (field _ (d !! RepChangeEventProp.OLD_REPUTATIONS)) as [o3|e];
    simpl; [|left; by exists e].
  rewrite Hrel. simpl.
  destruct (relationships_value _ _ (JObj rel)) as [r|e] eqn:Hr;
    simpl; [|left; by exists e].
  destruct (field _ (d !! CertRepChangeEventProp.PUBLIC_KEY_SHA1))
    as [o5|e]; simpl; [|left; by exists e].
  right.
  apply relationships_value_keys in Hr as (rel' & -> & Hdom & Hk & Hcert).
  eexists _, rel'. split; [reflexivity|]. split; [|done].
  rewrite lookup_put_ne by done. simpl. apply lookup_insert_eq.
Qed.

(** X11.  A list or a string under newReputations, oldReputations or
    relationships is left alone, with no helper run, unless the inner key
    name (reputations, certificate) occurs in it as an element or as a
    substring; then the subscript behind the inner guard raises
    TypeError. *)
Theorem steps_on_sequence_field (d : gmap string json) (v : json) :
  is_sequence v = true →
  (∀ key, d !! key = Some v →
     unwrap_reputations _transform_reputations key (JObj d)
     = if mentions v "reputations" then Raise TypeError else Ok (JObj d)) ∧
  (d !! FileRepChangeEventProp.RELATIONSHIPS = Some v →
     transform_relationships _transform_hashes _base64_to_hex (JObj d)
     = if mentions v "certificate" then Raise TypeError else Ok (JObj d)).
Proof.
  intros Hv. split.
  - intros key Hk. rewrite unwrap_reputations_obj, Hk.
    rewrite (py_in_sequence _ _ Hv). simpl.
    destruct (mentions v "reputations"); [|done].
    by rewrite (py_getitem_sequence _ _ Hv).
  - intros Hk. rewrite transform_relationships_obj, Hk.
    rewrite (py_in_sequence _ _ Hv). simpl.
    destruct (mentions v "certificate"); [|done].
    by rewrite (py_getitem_sequence _ _ Hv).
Qed.

End Edges.

(** ** The further statements at sample events *)

Module EdgeWitnesses.
Import Samples EdgeSamples.

(** The document null stops the run with TypeError. *)
Lemma on_event_scalar_document_witness :
  MyReputationChangeCallback.on_event (file_event null_payload) start
  = (Raise TypeError, start).
Proof.
  exact (on_event_scalar_document
           PyLib.decode_utf8 PyLib.json_loads
           (TieClient._transform_hashes TieClient.unhexlify)
           TieClient._transform_reputations TieClient._base64_to_hex
           MyReputationChangeCallback.on_reputation_change
           (file_event null_payload) null_payload JNull start
           eq_refl eq_refl eq_refl).
Defined.

(** An array without a key name is printed as it is; an array with the
    element hashes stops the run with TypeError. *)
Lemma on_event_sequence_document_witness :
  MyReputationChangeCallback.on_event (file_event list_payload) start
  = (Ok (), World [list_document] [(list_document, file_event list_payload)])
  ∧
  MyReputationChangeCallback.on_event (file_event hashes_list_payload) start
  = (Raise TypeError, start).
Proof.
  split.
  - pose proof (on_event_sequence_document
                  PyLib.decode_utf8 PyLib.json_loads
                  (TieClient._transform_hashes TieClient.unhexlify)
                  TieClient._transform_reputations TieClient._base64_to_hex
                  MyReputationChangeCallback.on_reputation_change
                  (file_event list_payload) list_payload list_document start
                  eq_refl eq_refl eq_refl) as Hrun.
    unfold MyReputationChangeCallback.on_event. rewrite Hrun. reflexivity.
  - pose proof (on_event_sequence_document
                  PyLib.decode_utf8 PyLib.json_loads
                  (TieClient._transform_hashes TieClient.unhexlify)
                  TieClient._transform_reputations TieClient._base64_to_hex
                  MyReputationChangeCallback.on_reputation_change
                  (file_event hashes_list_payload) hashes_list_payload
                  (JArr [JStr "hashes"]) start
                  eq_refl eq_refl eq_refl) as Hrun.
    unfold MyReputationChangeCallback.on_event. rewrite Hrun. reflexivity.
Defined.

(** The transform error of the badly encoded public key is accounted
    for. *)
Lemma on_event_exception_provenance_witness :
  decode_error TransformError ∨ TransformError = TypeError ∨
  raised_by (TieClient._transform_hashes TieClient.unhexlify) TransformError ∨
  raised_by TieClient._transform_reputations TransformError ∨
  raised_by TieClient._base64_to_hex TransformError ∨
  ∃ r, (MyReputationChangeCallback.on_reputation_change r
          (cert_event bad_key_payload) (user start)).1
       = Raise TransformError.
Proof.
  apply (on_event_exception_provenance
           PyLib.decode_utf8 PyLib.json_loads
           (TieClient._transform_hashes TieClient.unhexlify)
           TieClient._transform_reputations TieClient._base64_to_hex
           MyReputationChangeCallback.on_reputation_change
           (cert_event bad_key_payload) start TransformError).
  vm_compute. reflexivity.
Defined.

(** null under newReputations stops the run. *)
Lemma on_event_scalar_field_witness :
  stopped start
    (MyReputationChangeCallback.on_event (file_event null_field_payload)
       start).
Proof.
  destruct (on_event_scalar_field
              PyLib.decode_utf8 PyLib.json_loads
              (TieClient._transform_hashes TieClient.unhexlify)
              TieClient._transform_reputations TieClient._base64_to_hex
              MyReputationChangeCallback.on_reputation_change
              (file_event null_field_payload) null_field_payload
              null_field_record JNull start)
    as [Hstop _].
  - vm_compute; reflexivity.
  - vm_compute; reflexivity.
  - reflexivity.
  - left. vm_compute; reflexivity.
  - exact Hstop.
Defined.

(** The member count of the wrapper is dropped. *)
Lemma unwrap_reputations_drops_siblings_witness :
  unwrap_reputations TieClient._transform_reputations "newReputations"
    (JObj (<[ "newReputations" := JObj crowded_wrapper ]> time_record))
  = unwrap_reputations TieClient._transform_reputations "newReputations"
      (JObj (<[ "newReputations" := JObj bare_wrapper ]> time_record)).
Proof.
  destruct (unwrap_reputations_drops_siblings
              TieClient._transform_reputations "newReputations" time_record
              crowded_wrapper bare_wrapper (JObj {[ "1" := reputation ]}))
    as [Hsame _].
  - vm_compute; reflexivity.
  - vm_compute; reflexivity.
  - exact Hsame.
Defined.

Lemma keep_total : total keep.
Proof. intros x. exists x. reflexivity. Defined.

(** With helpers that raise nothing, the record with a certificate reaches
    the handler. *)
Lemma on_event_reaches_handler_witness :
  ∃ d',
    on_event PyLib.decode_utf8 PyLib.json_loads keep keep keep
      MyReputationChangeCallback.on_reputation_change
      (file_event relationships_payload) start
    = invoke MyReputationChangeCallback.on_reputation_change (JObj d')
        (file_event relationships_payload) start.
Proof.
  apply (on_event_reaches_handler
           PyLib.decode_utf8 PyLib.json_loads keep keep keep
           MyReputationChangeCallback.on_reputation_change
           (file_event relationships_payload) relationships_payload
           relationships_record start).
  - vm_compute; reflexivity.
  - vm_compute; reflexivity.
  - exact keep_total.
  - exact keep_total.
  - exact keep_total.
  - vm_compute. exact (conj I (conj I I)).
Defined.

(** The relationships and the certificate of the sample keep their keys. *)
Lemma on_event_keeps_nested_keys_witness :
  ∃ d' rel' cert' : gmap string json,
    MyReputationChangeCallback.on_event (file_event relationships_payload)
      start
    = invoke MyReputationChangeCallback.on_reputation_change (JObj d')
        (file_event relationships_payload) start ∧
    d' !! "relationships" = Some (JObj rel') ∧
    dom rel' = dom relationships ∧
    rel' !! "certificate" = Some (JObj cert') ∧
    dom cert' = dom certificate.
Proof.
  destruct (on_event_keeps_nested_keys
              PyLib.decode_utf8 PyLib.json_loads
              (TieClient._transform_hashes TieClient.unhexlify)
              TieClient._transform_reputations TieClient._base64_to_hex
              MyReputationChangeCallback.on_reputation_change
              (file_event relationships_payload) relationships_payload
              relationships_record relationships start)
    as [[e Hstop] | (d' & rel' & Hrun & Hrel & Hdom & _ & Hcert)].
  - vm_compute; reflexivity.
  - vm_compute; reflexivity.
  - vm_compute; reflexivity.
  - vm_compute in Hstop. discriminate Hstop.
  - destruct (Hcert certificate) as (cert' & Hc & Hcdom).
    { vm_compute; reflexivity. }
    exists d', rel', cert'. repeat split; assumption.
Defined.

(** A list under newReputations is left alone. *)
Lemma steps_on_sequence_field_witness :
  unwrap_reputations TieClient._transform_reputations "newReputations"
    (JObj {[ "newReputations" := list_document ]})
  = Ok (JObj {[ "newReputations" := list_document ]}).
Proof.
  destruct (steps_on_sequence_field
              (TieClient._transform_hashes TieClient.unhexlify)
              TieClient._transform_reputations TieClient._base64_to_hex
              {[ "newReputations" := list_document ]} list_document eq_refl)
    as [Hunwrap _].
  rewrite (Hunwrap "newReputations"); [reflexivity|].
  vm_compute; reflexivity.
Defined.

End EdgeWitnesses.

(** ** Decode errors: what [json.loads] lets through *)

Module Refutations.
Import Samples EdgeSamples.

(** C2 as first stated (every payload that is not valid JSON ends in a
    decode error) fails.  The payload holding updateTime: NaN is valid UTF-8
    and is not valid JSON (the grammar has no literal NaN), yet [json.loads]
    reads it: [on_event] raises nothing and calls the handler with the
    parsed record. *)
Lemma on_event_decode_error_counterexample :
  PyLib.decode_utf8 (payload (file_event nan_payload)) = Some nan_payload ∧
  Rfc8259.valid nan_payload = false ∧
  MyReputationChangeCallback.on_event (file_event nan_payload) start
  = (Ok (), World [JObj nan_record]
              [(JObj nan_record, file_event nan_payload)]) ∧
  ¬ stopped start
      (MyReputationChangeCallback.on_event (file_event nan_payload) start).
Proof.
  split; [vm_compute; reflexivity|].
  split; [vm_compute; reflexivity|].
  split; [vm_compute; reflexivity|].
  intros [e Hstop]. vm_compute in Hstop. discriminate Hstop.
Qed.

End Refutations.
